(** * Wire: the non-blocking socket reactor of osnet/Wire.hpp

    A shallow embedding of [ZeroTier::Wire] (the POSIX branch of its
    preprocessor conditionals) and the properties of its socket table,
    its TCP state machine, its send paths and its handler guards.

    Conventions of the embedding.
    - A [WireSocket *] handle is the address of the [WireSocketImpl] held
      by a node of the [std::list]; the table is the list of nodes in
      iteration order, each paired with that address.  [0] is the null
      pointer.
    - Every interaction with the operating system, the allocator and the
      six handlers is written to an event log; the answers come from
      oracle records ([OS], [Handlers]) passed to each operation.
    - Reactor code runs in the monad [M]: state [Wire], the events
      emitted, and a result that is a value, a C++ exception in flight,
      or undefined behaviour (a handle that is not live is dereferenced,
      a value-returning function ends without [return]).
    - Handlers see the handle, may replace the [uptr] they get by
      [void **] and may throw; they do not call back into the reactor.
    - [fd_set] is a finite set of descriptors; the bound [FD_SETSIZE] on
      the values an [fd_set] can hold is not modelled.
    - The constructor, the destructor and every member function are
      embedded.

    Two places of the source are not well-formed C++ and are read as
    follows.
    - [poll] names the current socket [&(_socks[i])], with no [i] in
      scope; it is read as the address of the element the iterator
      stands at.
    - The accept branch of [poll] assigns the iterator to the descriptor
      field, [sws.sock = s], which has no meaning in C++.  The value
      stored is left open: it is the platform parameter
      [iterator_as_sockfd] of the node's address, of which nothing is
      assumed.  The theorems are stated for every platform; only the
      worked examples fix one.

    One place is well-formed but undefined: [close] erases the node it
    is given, and when [poll] calls it for the node its iterator stands
    at, the iterator is invalid from then on.  The connected branch of
    [poll] goes on to read [s->sock], and the loop to increment [s];
    both are undefined behaviour here, as every use of a handle that is
    not live is. *)

From Stdlib Require Import ZArith Lia Bool.
From stdpp Require Import base decidable option list gmap.

Local Open Scope Z_scope.

(** ** Data model *)

(** [typedef const void * WireSocket]: handles are compared as pointers. *)
Definition WireSocket := Z.
Definition NULL : WireSocket := 0.

(** [ZT_WIRE_SOCKFD_TYPE] is [int]; [ZT_WIRE_SOCKFD_VALID(s)] is [s > -1]. *)
Definition ZT_WIRE_SOCKFD_NULL : Z := -1.
Definition ZT_WIRE_SOCKFD_VALID (s : Z) : bool := s >? -1.

Abbreviation fd_set := (gset Z).
Definition FD_ZERO : fd_set := ∅.
Definition FD_SET (fd : Z) (s : fd_set) : fd_set := {[ fd ]} ∪ s.
Definition FD_CLR (fd : Z) (s : fd_set) : fd_set := s ∖ {[ fd ]}.
Definition FD_ISSET (fd : Z) (s : fd_set) : bool := bool_decide (fd ∈ s).

(** [long] and [unsigned long] of the LP64 platforms the POSIX branch is
    compiled for. *)
Definition LONG_MAX : Z := 2 ^ 63 - 1.
Definition to_ulong (z : Z) : Z := z mod 2 ^ 64.
Definition to_long (z : Z) : Z := (z + 2 ^ 63) mod 2 ^ 64 - 2 ^ 63.

Record sockaddr := { sa_family : Z; sa_data : list Byte.byte }.
(** [memset(&ss,0,sizeof(ss))] *)
Definition sockaddr_zero : sockaddr := {| sa_family := 0; sa_data := [] |}.

Inductive WireSocketType :=
| ZT_WIRE_SOCKET_TCP_OUT_PENDING
| ZT_WIRE_SOCKET_TCP_OUT_CONNECTED
| ZT_WIRE_SOCKET_TCP_IN
| ZT_WIRE_SOCKET_TCP_LISTEN
| ZT_WIRE_SOCKET_RAW
| ZT_WIRE_SOCKET_UDP.

Definition WireSocketType_code (t : WireSocketType) : Z :=
  match t with
  | ZT_WIRE_SOCKET_TCP_OUT_PENDING => 0
  | ZT_WIRE_SOCKET_TCP_OUT_CONNECTED => 1
  | ZT_WIRE_SOCKET_TCP_IN => 2
  | ZT_WIRE_SOCKET_TCP_LISTEN => 3
  | ZT_WIRE_SOCKET_RAW => 4
  | ZT_WIRE_SOCKET_UDP => 5
  end.

Record WireSocketImpl := {
  type : WireSocketType;
  sock : Z;
  uptr : Z;
  saddr : sockaddr
}.

(** [WireSocketImpl()]: the value-initialised element [push_back] copies
    into the new node. *)
Definition WireSocketImpl_default : WireSocketImpl :=
  {| type := ZT_WIRE_SOCKET_TCP_OUT_PENDING; sock := 0; uptr := 0;
     saddr := sockaddr_zero |}.

Definition set_type (t : WireSocketType) (s : WireSocketImpl) : WireSocketImpl :=
  {| type := t; sock := sock s; uptr := uptr s; saddr := saddr s |}.
Definition set_sock (fd : Z) (s : WireSocketImpl) : WireSocketImpl :=
  {| type := type s; sock := fd; uptr := uptr s; saddr := saddr s |}.
Definition set_uptr (u : Z) (s : WireSocketImpl) : WireSocketImpl :=
  {| type := type s; sock := sock s; uptr := u; saddr := saddr s |}.
Definition set_saddr (a : sockaddr) (s : WireSocketImpl) : WireSocketImpl :=
  {| type := type s; sock := sock s; uptr := uptr s; saddr := a |}.

Definition _isTCP (sws : WireSocketImpl) : bool :=
  negb (Z.land (WireSocketType_code (type sws)) 3 =? 0).

(** The members of [Wire] other than the handlers. *)
Record Wire := {
  _socks : list (WireSocket * WireSocketImpl);
  _readfds : fd_set;
  _writefds : fd_set;
  _exceptfds : fd_set;
  _nfds : Z;
  _whackReceiveSocket : Z;
  _whackSendSocket : Z;
  _noDelay : bool
}.

Definition with_socks (l : list (WireSocket * WireSocketImpl)) (w : Wire) : Wire :=
  {| _socks := l; _readfds := _readfds w; _writefds := _writefds w;
     _exceptfds := _exceptfds w; _nfds := _nfds w;
     _whackReceiveSocket := _whackReceiveSocket w;
     _whackSendSocket := _whackSendSocket w; _noDelay := _noDelay w |}.
Definition with_readfds (s : fd_set) (w : Wire) : Wire :=
  {| _socks := _socks w; _readfds := s; _writefds := _writefds w;
     _exceptfds := _exceptfds w; _nfds := _nfds w;
     _whackReceiveSocket := _whackReceiveSocket w;
     _whackSendSocket := _whackSendSocket w; _noDelay := _noDelay w |}.
Definition with_writefds (s : fd_set) (w : Wire) : Wire :=
  {| _socks := _socks w; _readfds := _readfds w; _writefds := s;
     _exceptfds := _exceptfds w; _nfds := _nfds w;
     _whackReceiveSocket := _whackReceiveSocket w;
     _whackSendSocket := _whackSendSocket w; _noDelay := _noDelay w |}.
Definition with_exceptfds (s : fd_set) (w : Wire) : Wire :=
  {| _socks := _socks w; _readfds := _readfds w; _writefds := _writefds w;
     _exceptfds := s; _nfds := _nfds w;
     _whackReceiveSocket := _whackReceiveSocket w;
     _whackSendSocket := _whackSendSocket w; _noDelay := _noDelay w |}.
Definition with_nfds (n : Z) (w : Wire) : Wire :=
  {| _socks := _socks w; _readfds := _readfds w; _writefds := _writefds w;
     _exceptfds := _exceptfds w; _nfds := n;
     _whackReceiveSocket := _whackReceiveSocket w;
     _whackSendSocket := _whackSendSocket w; _noDelay := _noDelay w |}.

(** ** Table access *)

(** [*sock] for a handle: the element of the node at that address. *)
Fixpoint deref (h : WireSocket) (l : list (WireSocket * WireSocketImpl))
  : option WireSocketImpl :=
  match l with
  | [] => None
  | (a, s) :: l' => if a =? h then Some s else deref h l'
  end.

(** A write through the reference [sws] obtained from a handle. *)
Fixpoint update_at_addr (h : WireSocket) (f : WireSocketImpl -> WireSocketImpl)
  (l : list (WireSocket * WireSocketImpl)) : list (WireSocket * WireSocketImpl) :=
  match l with
  | [] => []
  | (a, s) :: l' =>
      if a =? h then (a, f s) :: l' else (a, s) :: update_at_addr h f l'
  end.

(** The loop that closes [close]: erase the first node whose element has
    the address [sock], then [break]. *)
Fixpoint erase_addr (h : WireSocket) (l : list (WireSocket * WireSocketImpl))
  : list (WireSocket * WireSocketImpl) :=
  match l with
  | [] => []
  | (a, s) :: l' => if a =? h then l' else (a, s) :: erase_addr h l'
  end.

(** A write through the iterator standing at position [k]. *)
Definition update_at_iter (k : nat) (f : WireSocketImpl -> WireSocketImpl)
  (l : list (WireSocket * WireSocketImpl)) : list (WireSocket * WireSocketImpl) :=
  alter (fun p => (p.1, f p.2)) k l.

(** A write through the reference to [_socks.back()]. *)
Definition update_back (f : WireSocketImpl -> WireSocketImpl)
  (l : list (WireSocket * WireSocketImpl)) : list (WireSocket * WireSocketImpl) :=
  update_at_iter (Nat.pred (length l)) f l.

Definition handles (w : Wire) : list WireSocket := (_socks w).*1.

(** ** The environment: system calls, allocator, handlers *)

Inductive sockopt :=
| SO_RCVBUF | SO_SNDBUF | IPV6_V6ONLY | IPV6_MTU_DISCOVER | SO_REUSEADDR
| SO_BROADCAST | IP_DONTFRAG | IP_MTU_DISCOVER | TCP_NODELAY.

(** Constants and conditionals that come from the system headers, and
    a value for the one assignment of the source that C++ gives no
    meaning to. *)
Record Platform := {
  FD_SETSIZE : nat;
  AF_INET6 : Z;
  SOCK_DGRAM : Z;
  sizeof_sockaddr_in : Z;
  sizeof_sockaddr_in6 : Z;
  have_IPV6_MTU_DISCOVER : bool;
  have_IP_DONTFRAG : bool;
  have_IP_MTU_DISCOVER : bool;
  (** What [sws.sock = s] leaves in the descriptor field when [s] is the
      list iterator standing at the node whose element has the given
      address; nothing is assumed of it. *)
  iterator_as_sockfd : WireSocket -> Z
}.

(** What the outside world answers.  Each operation is given the oracle
    of the moment it runs in. *)
Record OS := {
  os_pipe : option (Z * Z);
  os_socket : Z -> Z -> Z;
  os_setsockopt : Z -> sockopt -> Z -> Z;
  os_bind : Z -> sockaddr -> Z -> Z;
  os_sendto : Z -> list Byte.byte -> Z -> sockaddr -> Z -> Z;
  os_send : Z -> list Byte.byte -> Z -> Z;
  (** [select] overwrites the three sets it is given. *)
  os_select : Z -> fd_set -> fd_set -> fd_set -> option (Z * Z)
              -> fd_set * fd_set * fd_set;
  os_getpeername : Z -> Z;
  os_recv : Z -> Z * list Byte.byte;
  os_accept : Z -> Z * sockaddr;
  os_recvfrom : Z -> Z * list Byte.byte * sockaddr;
  (** Address of the element of the node [push_back] allocates, given
      the addresses in use; [None] when allocation throws. *)
  os_new_node : list WireSocket -> option WireSocket
}.

(** What a handler did with the [void **uptr] it was given, and whether
    it left by an exception. *)
Record HandlerResult := { new_uptr : Z; throws : bool }.
Record AcceptHandlerResult :=
  { new_uptrL : Z; new_uptrN : Z; accept_throws : bool }.

Record Handlers := {
  _dgHandler : WireSocket -> Z -> sockaddr -> list Byte.byte -> Z -> HandlerResult;
  _tcpConnectHandler : WireSocket -> Z -> bool -> HandlerResult;
  _tcpAcceptHandler : WireSocket -> WireSocket -> Z -> Z -> sockaddr
                      -> AcceptHandlerResult;
  _tcpCloseHandler : WireSocket -> Z -> HandlerResult;
  _tcpDataHandler : WireSocket -> Z -> list Byte.byte -> Z -> HandlerResult;
  _tcpWritableHandler : WireSocket -> Z -> HandlerResult
}.

Inductive Event :=
| SysPipe
| SysSocket (family ty : Z)
| SysSetsockopt (fd : Z) (opt : sockopt) (val : Z)
| SysBind (fd : Z) (addr : sockaddr) (len : Z)
| SysSetNonblock (fd : Z)
| SysClose (fd : Z)
| SysSendto (fd : Z) (data : list Byte.byte) (len : Z) (addr : sockaddr) (addrlen : Z)
| SysSend (fd : Z) (data : list Byte.byte) (len : Z)
| SysWrite (fd : Z)
| SysSelect (n : Z) (r w e : fd_set) (tv : option (Z * Z))
| SysRead (fd : Z)
| SysGetpeername (fd : Z)
| SysRecv (fd : Z)
| SysAccept (fd : Z)
| SysRecvfrom (fd : Z)
| CallDatagram (h : WireSocket) (u : Z) (from : sockaddr) (data : list Byte.byte) (len : Z)
| CallTcpConnect (h : WireSocket) (u : Z) (success : bool)
| CallTcpAccept (hL hN : WireSocket) (uL uN : Z) (from : sockaddr)
| CallTcpClose (h : WireSocket) (u : Z)
| CallTcpData (h : WireSocket) (u : Z) (data : list Byte.byte) (len : Z)
| CallTcpWritable (h : WireSocket) (u : Z).

(** ** The reactor monad *)

Inductive exn := HandlerException | BadAlloc | RuntimeError.

Inductive res (A : Type) :=
| Ret (a : A)
| Throw (e : exn)
(** the C++ program has no defined behaviour from here on *)
| Undefined
(** the iteration bound of a modelled loop was reached *)
| OutOfFuel.
Arguments Ret {A} a.
Arguments Throw {A} e.
Arguments Undefined {A}.
Arguments OutOfFuel {A}.

Definition M (A : Type) : Type := Wire -> Wire * list Event * res A.

Definition ret {A} (a : A) : M A := fun w => (w, [], Ret a).

Definition bind {A B} (m : M A) (f : A -> M B) : M B :=
  fun w =>
    match m w with
    | (w1, t1, Ret a) =>
        match f a w1 with
        | (w2, t2, r) => (w2, t1 ++ t2, r)
        end
    | (w1, t1, Throw e) => (w1, t1, Throw e)
    | (w1, t1, Undefined) => (w1, t1, Undefined)
    | (w1, t1, OutOfFuel) => (w1, t1, OutOfFuel)
    end.

Declare Scope wire_scope.
Delimit Scope wire_scope with wire.
Notation "x <- m ;; k" := (bind m (fun x => k))
  (at level 100, m at next level, right associativity) : wire_scope.
Notation "m ;;; k" := (bind m (fun _ => k))
  (at level 100, right associativity) : wire_scope.
Local Open Scope wire_scope.

Definition get : M Wire := fun w => (w, [], Ret w).
Definition modify (f : Wire -> Wire) : M unit := fun w => (f w, [], Ret tt).
Definition emit (e : Event) : M unit := fun w => (w, [e], Ret tt).
Definition throw {A} (e : exn) : M A := fun w => (w, [], Throw e).
Definition undefined {A} : M A := fun w => (w, [], Undefined).

(** [try { m } catch ( ... ) {}] *)
Definition try_catch_all (m : M unit) : M unit :=
  fun w =>
    match m w with
    | (w1, t1, Throw _) => (w1, t1, Ret tt)
    | r => r
    end.

Definition when (b : bool) (m : M unit) : M unit := if b then m else ret tt.

(** [try { m } catch ( ... ) { ... }] where the handler leaves the
    function: the result tells whether [m] completed. *)
Definition try_completed (m : M unit) : M bool :=
  fun w =>
    match m w with
    | (w1, t1, Ret _) => (w1, t1, Ret true)
    | (w1, t1, Throw _) => (w1, t1, Ret false)
    | (w1, t1, Undefined) => (w1, t1, Undefined)
    | (w1, t1, OutOfFuel) => (w1, t1, OutOfFuel)
    end.

(** ** References into the table *)

(** The three ways the code reaches a [WireSocketImpl]: through a handle
    ([sws] in [close] and the send functions), through the loop iterator
    ([s->]) and through [_socks.back()]. *)
Inductive slot :=
| SlotAddr (h : WireSocket)
| SlotIter (k : nat)
| SlotBack.

Definition read_slot (r : slot) (l : list (WireSocket * WireSocketImpl))
  : option WireSocketImpl :=
  match r with
  | SlotAddr h => deref h l
  | SlotIter k => snd <$> l !! k
  | SlotBack => snd <$> last l
  end.

Definition write_slot (r : slot) (f : WireSocketImpl -> WireSocketImpl)
  (l : list (WireSocket * WireSocketImpl)) : list (WireSocket * WireSocketImpl) :=
  match r with
  | SlotAddr h => update_at_addr h f l
  | SlotIter k => update_at_iter k f l
  | SlotBack => update_back f l
  end.

Definition load (r : slot) : M WireSocketImpl :=
  w <- get;;
  match read_slot r (_socks w) with
  | Some s => ret s
  | None => undefined
  end.

Definition store (r : slot) (f : WireSocketImpl -> WireSocketImpl) : M unit :=
  modify (fun w => with_socks (write_slot r f (_socks w)) w).

(** ** Handler invocations

    Each takes the handle passed as [sock] and the slot whose [uptr]
    member is passed by address. *)

Definition handler_exit (r : HandlerResult) : M unit :=
  if throws r then throw HandlerException else ret tt.

Definition call_dgHandler (hs : Handlers) (h : WireSocket) (r : slot)
  (from : sockaddr) (data : list Byte.byte) (len : Z) : M unit :=
  s <- load r;;
  emit (CallDatagram h (uptr s) from data len);;;
  let o := _dgHandler hs h (uptr s) from data len in
  store r (set_uptr (new_uptr o));;;
  handler_exit o.

Definition call_tcpConnectHandler (hs : Handlers) (h : WireSocket) (r : slot)
  (success : bool) : M unit :=
  s <- load r;;
  emit (CallTcpConnect h (uptr s) success);;;
  let o := _tcpConnectHandler hs h (uptr s) success in
  store r (set_uptr (new_uptr o));;;
  handler_exit o.

Definition call_tcpCloseHandler (hs : Handlers) (h : WireSocket) (r : slot)
  : M unit :=
  s <- load r;;
  emit (CallTcpClose h (uptr s));;;
  let o := _tcpCloseHandler hs h (uptr s) in
  store r (set_uptr (new_uptr o));;;
  handler_exit o.

Definition call_tcpDataHandler (hs : Handlers) (h : WireSocket) (r : slot)
  (data : list Byte.byte) (len : Z) : M unit :=
  s <- load r;;
  emit (CallTcpData h (uptr s) data len);;;
  let o := _tcpDataHandler hs h (uptr s) data len in
  store r (set_uptr (new_uptr o));;;
  handler_exit o.

Definition call_tcpWritableHandler (hs : Handlers) (h : WireSocket) (r : slot)
  : M unit :=
  s <- load r;;
  emit (CallTcpWritable h (uptr s));;;
  let o := _tcpWritableHandler hs h (uptr s) in
  store r (set_uptr (new_uptr o));;;
  handler_exit o.

Definition call_tcpAcceptHandler (hs : Handlers) (hL hN : WireSocket)
  (rL rN : slot) : M unit :=
  sL <- load rL;;
  sN <- load rN;;
  emit (CallTcpAccept hL hN (uptr sL) (uptr sN) (saddr sN));;;
  let o := _tcpAcceptHandler hs hL hN (uptr sL) (uptr sN) (saddr sN) in
  store rL (set_uptr (new_uptrL o));;;
  store rN (set_uptr (new_uptrN o));;;
  if accept_throws o then throw HandlerException else ret tt.

(** ** Operations of [Wire] *)

(** The constructor. *)
Definition Wire_new (os : OS) (noDelay : bool) : list Event * res Wire :=
  match os_pipe os with
  | None => ([SysPipe], Throw RuntimeError)
  | Some (p0, p1) =>
      ([SysPipe],
       Ret {| _socks := []; _readfds := FD_ZERO; _writefds := FD_ZERO;
              _exceptfds := FD_ZERO;
              _nfds := if p0 >? p1 then p0 else p1;
              _whackReceiveSocket := p0; _whackSendSocket := p1;
              _noDelay := noDelay |})
  end.

Definition whack : M unit :=
  w <- get;; emit (SysWrite (_whackSendSocket w)).

Definition count : M Z :=
  w <- get;; ret (Z.of_nat (length (_socks w))).

(** The scan of [close] for the highest descriptor. *)
Definition highest_sockfd (w : Wire) : Z :=
  let nfds := _whackSendSocket w in
  let nfds := if _whackReceiveSocket w >? nfds then _whackReceiveSocket w else nfds in
  fold_left (fun n p => if sock p.2 >? n then sock p.2 else n) (_socks w) nfds.

Definition close (hs : Handlers) (sock_ : WireSocket) (callHandlers : bool)
  : M unit :=
  if sock_ =? NULL then ret tt else
  sws <- load (SlotAddr sock_);;
  modify (fun w => with_readfds (FD_CLR (sock sws) (_readfds w)) w);;;
  modify (fun w => with_writefds (FD_CLR (sock sws) (_writefds w)) w);;;
  modify (fun w => with_exceptfds (FD_CLR (sock sws) (_exceptfds w)) w);;;
  emit (SysClose (sock sws));;;
  (match type sws with
   | ZT_WIRE_SOCKET_TCP_OUT_PENDING =>
       when callHandlers
         (try_catch_all (call_tcpConnectHandler hs sock_ (SlotAddr sock_) false))
   | ZT_WIRE_SOCKET_TCP_OUT_CONNECTED
   | ZT_WIRE_SOCKET_TCP_IN =>
       when callHandlers
         (try_catch_all (call_tcpCloseHandler hs sock_ (SlotAddr sock_)))
   | _ => ret tt
   end);;;
  w <- get;;
  when (sock sws >=? _nfds w) (modify (with_nfds (highest_sockfd w)));;;
  modify (fun w => with_socks (erase_addr sock_ (_socks w)) w).

Definition to_int (z : Z) : Z := (z + 2 ^ 31) mod 2 ^ 32 - 2 ^ 31.

(** [_socks.push_back(WireSocketImpl())]: a node is allocated and linked
    at the end, or the allocation throws. *)
Definition push_back (os : OS) : M unit :=
  w <- get;;
  match os_new_node os (handles w) with
  | None => throw BadAlloc
  | Some a => modify (with_socks (_socks w ++ [(a, WireSocketImpl_default)]))
  end.

(** [&(_socks.back())] *)
Definition back_addr : M WireSocket :=
  w <- get;;
  match last (_socks w) with
  | Some p => ret p.1
  | None => undefined
  end.

(** [setsockopt] whose return value is ignored. *)
Definition setsockopt_ (fd : Z) (opt : sockopt) (val : Z) : M unit :=
  emit (SysSetsockopt fd opt val).

(** [while (bs >= 65536) { if (setsockopt(...) == 0) break; bs -= 16384; }] *)
Fixpoint set_buffer_size (fuel : nat) (os : OS) (s : Z) (opt : sockopt) (bs : Z)
  : M unit :=
  match fuel with
  | O => fun w => (w, [], OutOfFuel)
  | S fuel' =>
      if bs >=? 65536 then
        emit (SysSetsockopt s opt bs);;;
        if os_setsockopt os s opt bs =? 0 then ret tt
        else set_buffer_size fuel' os s opt (bs - 16384)
      else ret tt
  end.

Definition buffer_fuel (bs : Z) : nat := S (Z.to_nat (bs / 16384)).

Section WithPlatform.

Variable P : Platform.

Definition maxCount : Z := Z.of_nat (FD_SETSIZE P).

(** [_socks.size() >= ZT_WIRE_MAX_SOCKETS] *)
Definition at_capacity (w : Wire) : bool :=
  (FD_SETSIZE P <=? length (_socks w))%nat.

Definition udpBind (os : OS) (localAddress : sockaddr) (uptr_ : Z)
  (bufferSize : Z) : M WireSocket :=
  w <- get;;
  if at_capacity w then ret NULL else
  let family := sa_family localAddress in
  emit (SysSocket family (SOCK_DGRAM P));;;
  let s := os_socket os family (SOCK_DGRAM P) in
  if negb (ZT_WIRE_SOCKFD_VALID s) then ret NULL else
  when (bufferSize >? 0)
    (set_buffer_size (buffer_fuel bufferSize) os s SO_RCVBUF bufferSize;;;
     set_buffer_size (buffer_fuel bufferSize) os s SO_SNDBUF bufferSize);;;
  when (family =? AF_INET6 P)
    (setsockopt_ s IPV6_V6ONLY 1;;;
     when (have_IPV6_MTU_DISCOVER P) (setsockopt_ s IPV6_MTU_DISCOVER 0));;;
  setsockopt_ s SO_REUSEADDR 0;;;
  setsockopt_ s SO_BROADCAST 1;;;
  when (have_IP_DONTFRAG P) (setsockopt_ s IP_DONTFRAG 0);;;
  when (have_IP_MTU_DISCOVER P) (setsockopt_ s IP_MTU_DISCOVER 0);;;
  let len := if family =? AF_INET6 P then sizeof_sockaddr_in6 P
             else sizeof_sockaddr_in P in
  emit (SysBind s localAddress len);;;
  if negb (os_bind os s localAddress len =? 0) then
    emit (SysClose s);;; ret NULL
  else
  emit (SysSetNonblock s);;;
  pushed <- try_completed (push_back os);;
  if negb pushed then emit (SysClose s);;; ret NULL else
  w <- get;;
  when (s >? _nfds w) (modify (with_nfds s));;;
  modify (fun w => with_readfds (FD_SET s (_readfds w)) w);;;
  store SlotBack (set_type ZT_WIRE_SOCKET_UDP);;;
  store SlotBack (set_sock s);;;
  store SlotBack (set_uptr uptr_);;;
  store SlotBack (set_saddr localAddress);;;
  back_addr.

Definition udpSend (os : OS) (sock_ : WireSocket) (addr : sockaddr)
  (addrlen : Z) (data : list Byte.byte) (len : Z) : M bool :=
  sws <- load (SlotAddr sock_);;
  emit (SysSendto (sock sws) data len addr addrlen);;;
  ret (to_long (os_sendto os (sock sws) data len addr addrlen) =? to_long len).

(** The body ends after the capacity check: below capacity control
    flows off the end of a function that returns a value. *)
Definition tcpListen (localAddress : sockaddr) (uptr_ : Z) : M WireSocket :=
  w <- get;;
  if at_capacity w then ret NULL else undefined.

Definition tcpConnect (remoteAddress : sockaddr) (uptr_ : Z) : M WireSocket :=
  w <- get;;
  if at_capacity w then ret NULL else undefined.

Definition tcpSend (os : OS) (sock_ : WireSocket) (data : list Byte.byte)
  (len : Z) : M Z :=
  sws <- load (SlotAddr sock_);;
  emit (SysSend (sock sws) data len);;;
  let n := to_long (os_send os (sock sws) data len) in
  ret (if n >? 0 then to_ulong n else 0).

Definition tcpSetNotifyWritable (sock_ : WireSocket) (notifyWritable : bool)
  : M unit :=
  sws <- load (SlotAddr sock_);;
  if notifyWritable then
    modify (fun w => with_writefds (FD_SET (sock sws) (_writefds w)) w)
  else
    modify (fun w => with_writefds (FD_CLR (sock sws) (_writefds w)) w).

(** *** [poll]

    The loop body for the node the iterator [s] stands at: [k] is its
    position, [h] the address of its element and [s0] the element as it
    is when the body is entered.  The handle expressions written
    [&(_socks[i])] are read as the address of the current element, which
    is what the accept branch passes for its listening socket.  The
    result tells whether the body erased the node through [close] and
    left the [switch]; the connected branch, which after its [close]
    still tests [s->sock] through the iterator of the erased node, does
    not get that far. *)
Definition poll_body (os : OS) (hs : Handlers) (rfds wfds efds : fd_set)
  (k : nat) (h : WireSocket) (s0 : WireSocketImpl) : M bool :=
  match type s0 with
  | ZT_WIRE_SOCKET_TCP_OUT_PENDING =>
      if FD_ISSET (sock s0) efds then
        close hs h true;;; ret true
      else if FD_ISSET (sock s0) wfds then
        emit (SysGetpeername (sock s0));;;
        if negb (os_getpeername os (sock s0) =? 0) then
          close hs h true;;; ret true
        else
          store (SlotIter k) (set_type ZT_WIRE_SOCKET_TCP_OUT_CONNECTED);;;
          modify (fun w => with_readfds (FD_SET (sock s0) (_readfds w)) w);;;
          modify (fun w => with_writefds (FD_CLR (sock s0) (_writefds w)) w);;;
          modify (fun w => with_exceptfds (FD_CLR (sock s0) (_exceptfds w)) w);;;
          try_catch_all (call_tcpConnectHandler hs h (SlotIter k) true);;;
          ret false
      else ret false
  | ZT_WIRE_SOCKET_TCP_OUT_CONNECTED
  | ZT_WIRE_SOCKET_TCP_IN =>
      erased <-
        (if FD_ISSET (sock s0) rfds then
           emit (SysRecv (sock s0));;;
           let '(n, data) := os_recv os (sock s0) in
           let n := to_long n in
           if n <=? 0 then close hs h true;;; ret true
           else
             try_catch_all (call_tcpDataHandler hs h (SlotIter k) data (to_ulong n));;;
             ret false
         else ret false);;
      if erased then undefined else
      w <- get;;
      when (FD_ISSET (sock s0) wfds && FD_ISSET (sock s0) (_writefds w))
        (try_catch_all (call_tcpWritableHandler hs h (SlotIter k)));;;
      ret false
  | ZT_WIRE_SOCKET_TCP_LISTEN =>
      when (FD_ISSET (sock s0) rfds)
        (emit (SysAccept (sock s0));;;
         let '(newSock, ss) := os_accept os (sock s0) in
         when (ZT_WIRE_SOCKFD_VALID newSock)
           (w <- get;;
            if at_capacity w then emit (SysClose newSock)
            else
              setsockopt_ newSock TCP_NODELAY (if _noDelay w then 1 else 0);;;
              emit (SysSetNonblock newSock);;;
              push_back os;;;
              modify (fun w => with_readfds (FD_SET newSock (_readfds w)) w);;;
              w <- get;;
              when (newSock >? _nfds w) (modify (with_nfds newSock));;;
              store SlotBack (set_type ZT_WIRE_SOCKET_UDP);;;
              store SlotBack (set_sock (iterator_as_sockfd P h));;;
              store SlotBack (set_uptr 0);;;
              store SlotBack (set_saddr ss);;;
              hN <- back_addr;;
              try_catch_all
                (call_tcpAcceptHandler hs h hN (SlotIter k) SlotBack)));;;
      ret false
  | ZT_WIRE_SOCKET_UDP =>
      when (FD_ISSET (sock s0) rfds)
        (emit (SysRecvfrom (sock s0));;;
         let '(n, data, ss) := os_recvfrom os (sock s0) in
         let n := to_long n in
         when (n >? 0)
           (try_catch_all
              (call_dgHandler hs h (SlotIter k) ss data (to_ulong n))));;;
      ret false
  | ZT_WIRE_SOCKET_RAW => ret false
  end.

(** [for (s = _socks.begin(); s != _socks.end(); ++s)].  The end of the
    list is re-read at every test, so nodes appended by the accept
    branch are visited in the same pass.  After the body erased the
    current node, [++s] increments an iterator that [erase] has
    invalidated: the pass has no defined behaviour from there. *)
Fixpoint poll_loop (fuel : nat) (os : OS) (hs : Handlers)
  (rfds wfds efds : fd_set) (k : nat) : M unit :=
  match fuel with
  | O => fun w => (w, [], OutOfFuel)
  | S fuel' =>
      w <- get;;
      match _socks w !! k with
      | None => ret tt
      | Some (h, s0) =>
          erased <- poll_body os hs rfds wfds efds k h s0;;
          if erased then undefined
          else poll_loop fuel' os hs rfds wfds efds (S k)
      end
  end.

Definition poll_fuel (w : Wire) : nat := S (2 * length (_socks w)).

Definition poll (os : OS) (hs : Handlers) (timeout : Z) : M unit :=
  w <- get;;
  let tv := (to_long (timeout / 1000), to_long ((timeout mod 1000) * 1000)) in
  let tvp := if timeout >? 0 then Some tv else None in
  let n := to_int (_nfds w) + 1 in
  emit (SysSelect n (_readfds w) (_writefds w) (_exceptfds w) tvp);;;
  let '(rfds, wfds, efds) :=
    os_select os n (_readfds w) (_writefds w) (_exceptfds w) tvp in
  when (FD_ISSET (_whackReceiveSocket w) rfds)
    (emit (SysRead (_whackReceiveSocket w)));;;
  poll_loop (poll_fuel w) os hs rfds wfds efds 0.

End WithPlatform.

(** ** Well-formed tables and environments *)

(** The addresses of the live nodes are those of distinct objects. *)
Definition wf_table (w : Wire) : Prop :=
  NoDup (handles w) /\ NULL ∉ handles w.

(** What C++ promises of an allocation that returns: the new node is not
    at the null address and overlaps no node in use. *)
Definition allocator_sound (os : OS) : Prop :=
  forall l a, os_new_node os l = Some a -> a <> NULL /\ a ∉ l.


(** The terminal handler call [close] owes a socket of each kind. *)
Definition terminal_calls (callHandlers : bool) (h : WireSocket)
  (sws : WireSocketImpl) : list Event :=
  if callHandlers then
    match type sws with
    | ZT_WIRE_SOCKET_TCP_OUT_PENDING => [CallTcpConnect h (uptr sws) false]
    | ZT_WIRE_SOCKET_TCP_OUT_CONNECTED
    | ZT_WIRE_SOCKET_TCP_IN => [CallTcpClose h (uptr sws)]
    | ZT_WIRE_SOCKET_TCP_LISTEN
    | ZT_WIRE_SOCKET_RAW
    | ZT_WIRE_SOCKET_UDP => []
    end
  else [].

(** ** Sequences of operations *)

Inductive call :=
| DoUdpBind (localAddress : sockaddr) (uptr_ : Z) (bufferSize : Z)
| DoUdpSend (sock_ : WireSocket) (addr : sockaddr) (addrlen : Z)
    (data : list Byte.byte) (len : Z)
| DoTcpListen (localAddress : sockaddr) (uptr_ : Z)
| DoTcpConnect (remoteAddress : sockaddr) (uptr_ : Z)
| DoTcpSend (sock_ : WireSocket) (data : list Byte.byte) (len : Z)
| DoTcpSetNotifyWritable (sock_ : WireSocket) (notifyWritable : bool)
| DoWhack
| DoPoll (timeout : Z)
| DoClose (sock_ : WireSocket) (callHandlers : bool).

Section Sequences.

Variable P : Platform.

(** The reactor after one call of a public member function. *)
Definition exec (os : OS) (hs : Handlers) (c : call) (w : Wire) : Wire :=
  match c with
  | DoUdpBind a u b => (udpBind P os a u b w).1.1
  | DoUdpSend h a al d n => (udpSend os h a al d n w).1.1
  | DoTcpListen a u => (tcpListen P a u w).1.1
  | DoTcpConnect a u => (tcpConnect P a u w).1.1
  | DoTcpSend h d n => (tcpSend os h d n w).1.1
  | DoTcpSetNotifyWritable h b => (tcpSetNotifyWritable h b w).1.1
  | DoWhack => (whack w).1.1
  | DoPoll timeout => (poll P os hs timeout w).1.1
  | DoClose h b => (close hs h b w).1.1
  end.

(** The states a reactor can be in: constructed, then driven by any
    calls, in an environment whose allocator is sound. *)
Inductive reachable : Wire -> Prop :=
| reachable_new os noDelay t w :
    Wire_new os noDelay = (t, Ret w) -> reachable w
| reachable_step os hs c w :
    allocator_sound os -> reachable w -> reachable (exec os hs c w).

(** "After close, the handle must never again compare equal to a handle
    returned for a different, later socket", for two sockets made by
    [udpBind]. *)
Definition handle_never_reissued : Prop :=
  forall os1 os2 hs a1 u1 b1 a2 u2 b2 c w w1 t1 h1 w2 t2 w3 t3 h2,
    reachable w ->
    allocator_sound os1 -> allocator_sound os2 ->
    udpBind P os1 a1 u1 b1 w = (w1, t1, Ret h1) -> h1 <> NULL ->
    close hs h1 c w1 = (w2, t2, Ret tt) ->
    udpBind P os2 a2 u2 b2 w2 = (w3, t3, Ret h2) -> h2 <> NULL ->
    h1 <> h2.

End Sequences.


(** ** A concrete platform and environment *)

Module Sample.

Definition linux : Platform :=
  {| FD_SETSIZE := 1024; AF_INET6 := 10; SOCK_DGRAM := 2;
     sizeof_sockaddr_in := 16; sizeof_sockaddr_in6 := 28;
     have_IPV6_MTU_DISCOVER := true; have_IP_DONTFRAG := false;
     have_IP_MTU_DISCOVER := true;
     iterator_as_sockfd := fun a => a |}.

(** The same platform with room for two sockets only. *)
Definition tiny : Platform :=
  {| FD_SETSIZE := 2; AF_INET6 := 10; SOCK_DGRAM := 2;
     sizeof_sockaddr_in := 16; sizeof_sockaddr_in6 := 28;
     have_IPV6_MTU_DISCOVER := true; have_IP_DONTFRAG := false;
     have_IP_MTU_DISCOVER := true;
     iterator_as_sockfd := fun a => a |}.

Definition keep (u : Z) : HandlerResult := {| new_uptr := u; throws := false |}.
Definition fail (u : Z) : HandlerResult := {| new_uptr := u; throws := true |}.

Definition quiet : Handlers :=
  {| _dgHandler := fun _ u _ _ _ => keep u;
     _tcpConnectHandler := fun _ u _ => keep u;
     _tcpAcceptHandler := fun _ _ uL uN _ =>
       {| new_uptrL := uL; new_uptrN := uN; accept_throws := false |};
     _tcpCloseHandler := fun _ u => keep u;
     _tcpDataHandler := fun _ u _ _ => keep u;
     _tcpWritableHandler := fun _ u => keep u |}.

(** Handlers that all leave by an exception. *)
Definition throwing : Handlers :=
  {| _dgHandler := fun _ u _ _ _ => fail u;
     _tcpConnectHandler := fun _ u _ => fail u;
     _tcpAcceptHandler := fun _ _ uL uN _ =>
       {| new_uptrL := uL; new_uptrN := uN; accept_throws := true |};
     _tcpCloseHandler := fun _ u => fail u;
     _tcpDataHandler := fun _ u _ _ => fail u;
     _tcpWritableHandler := fun _ u => fail u |}.

Definition loopback : sockaddr := {| sa_family := 2; sa_data := [] |}.
Definition peer : sockaddr := {| sa_family := 2; sa_data := [Byte.x01] |}.

(** An allocator that places a node 64 bytes above the highest node in
    use, from 4096 on: the memory of a node freed at the top is the
    first to be handed out again. *)
Definition top_alloc (l : list WireSocket) : option WireSocket :=
  Some (64 + fold_right Z.max 4032 l).

(** An operating system in which every call succeeds: [socket] and
    [accept] return the descriptor [fd], sends take the whole payload,
    [select] reports every registered descriptor ready.  Buffer sizes
    above 100000 are refused. *)
Definition os_ok (fd : Z) : OS :=
  {| os_pipe := Some (3, 4);
     os_socket := fun _ _ => fd;
     os_setsockopt := fun _ _ val => if val >? 100000 then -1 else 0;
     os_bind := fun _ _ _ => 0;
     os_sendto := fun _ _ len _ _ => len;
     os_send := fun _ _ len => len;
     os_select := fun _ r w e _ => (r, w, e);
     os_getpeername := fun _ => 0;
     os_recv := fun _ => (1, [Byte.x00]);
     os_accept := fun _ => (fd, peer);
     os_recvfrom := fun _ => (1, [Byte.x00], peer);
     os_new_node := top_alloc |}.

(** A freshly constructed reactor. *)
Definition fresh : Wire :=
  {| _socks := []; _readfds := FD_ZERO; _writefds := FD_ZERO;
     _exceptfds := FD_ZERO; _nfds := 4; _whackReceiveSocket := 3;
     _whackSendSocket := 4; _noDelay := true |}.

Definition entry (t : WireSocketType) (fd u : Z) : WireSocketImpl :=
  {| type := t; sock := fd; uptr := u; saddr := loopback |}.

(** One socket of the given kind, registered the way its kind is. *)
Definition single (t : WireSocketType) : Wire :=
  {| _socks := [(4096, entry t 5 7)];
     _readfds := match t with ZT_WIRE_SOCKET_TCP_OUT_PENDING => ∅ | _ => {[ 5 ]} end;
     _writefds := match t with ZT_WIRE_SOCKET_TCP_OUT_PENDING => {[ 5 ]} | _ => ∅ end;
     _exceptfds := match t with ZT_WIRE_SOCKET_TCP_OUT_PENDING => {[ 5 ]} | _ => ∅ end;
     _nfds := 5; _whackReceiveSocket := 3; _whackSendSocket := 4;
     _noDelay := true |}.

(** A table with one socket of each kind but raw. *)
Definition mixed : Wire :=
  {| _socks := [(4096, entry ZT_WIRE_SOCKET_TCP_OUT_PENDING 5 1);
                (4160, entry ZT_WIRE_SOCKET_TCP_OUT_CONNECTED 6 2);
                (4224, entry ZT_WIRE_SOCKET_TCP_LISTEN 7 3);
                (4288, entry ZT_WIRE_SOCKET_UDP 8 4)];
     _readfds := {[ 6; 7; 8 ]};
     _writefds := {[ 5; 6 ]};
     _exceptfds := {[ 5 ]};
     _nfds := 8; _whackReceiveSocket := 3; _whackSendSocket := 4;
     _noDelay := true |}.

(** The same table while the pending connect has not failed: no
    descriptor is registered as exceptional. *)
Definition steady : Wire := with_exceptfds ∅ mixed.

(** The reactor of [tiny] after two successful [udpBind] calls. *)
Definition two_sockets : Wire :=
  exec tiny (os_ok 6) quiet (DoUdpBind loopback 2 0)
    (exec tiny (os_ok 5) quiet (DoUdpBind loopback 1 0) fresh).

Definition ping : list Byte.byte := [Byte.x50; Byte.x49; Byte.x4e; Byte.x47].

End Sample.

(** ** The measure that bounds the [poll] loop *)

Definition is_listen (p : WireSocket * WireSocketImpl) : bool :=
  match type p.2 with
  | ZT_WIRE_SOCKET_TCP_LISTEN => true
  | _ => false
  end.

Fixpoint listening (l : list (WireSocket * WireSocketImpl)) : nat :=
  match l with
  | [] => 0
  | p :: l' => (if is_listen p then 1 else 0) + listening l'
  end.

(** Nodes from the iterator on, plus the listening sockets among them,
    each of which may append one node. *)
Definition poll_measure (l : list (WireSocket * WireSocketImpl)) (k : nat) : nat :=
  (length l - k) + listening (drop k l).

(** The reactor after a successful [udpBind]. *)
Definition bound_socket (w : Wire) (h : WireSocket) (s u : Z) (a : sockaddr) : Wire :=
  {| _socks := _socks w ++
       [(h, {| type := ZT_WIRE_SOCKET_UDP; sock := s; uptr := u; saddr := a |})];
     _readfds := FD_SET s (_readfds w);
     _writefds := _writefds w; _exceptfds := _exceptfds w;
     _nfds := if s >? _nfds w then s else _nfds w;
     _whackReceiveSocket := _whackReceiveSocket w;
     _whackSendSocket := _whackSendSocket w; _noDelay := _noDelay w |}.

(** The state [close] leaves behind for the socket the iterator is at. *)
Definition closed_at (k : nat) (fd : Z) (w w' : Wire) : Prop :=
  _socks w' = delete k (_socks w)
  /\ _readfds w' = FD_CLR fd (_readfds w)
  /\ _writefds w' = FD_CLR fd (_writefds w)
  /\ _exceptfds w' = FD_CLR fd (_exceptfds w).


(** ** The destructor *)

(** [while (!_socks.empty()) this->close(&(_socks.front()), true)] *)
Fixpoint close_all (fuel : nat) (hs : Handlers) : M unit :=
  match fuel with
  | O => fun w => (w, [], OutOfFuel)
  | S fuel' =>
      w <- get;;
      match _socks w with
      | [] => ret tt
      | (h, _) :: _ => close hs h true;;; close_all fuel' hs
      end
  end.

(** [~Wire]: every socket is closed with its handlers called, then the
    two ends of the pipe are closed. *)
Definition Wire_destroy (hs : Handlers) : M unit :=
  w <- get;;
  close_all (S (length (_socks w))) hs;;;
  emit (SysClose (_whackReceiveSocket w));;;
  emit (SysClose (_whackSendSocket w)).

(** What closing one table entry with handlers on writes to the log. *)
Definition teardown_log (p : WireSocket * WireSocketImpl) : list Event :=
  SysClose (sock p.2) :: terminal_calls true p.1 p.2.

(** The descriptors held by the table entries. *)
Definition table_fds (l : list (WireSocket * WireSocketImpl)) : list Z :=
  (fun p => sock p.2) <$> l.

(** The sizes the buffer loop of [udpBind] asks for: the requested size,
    then 16384 less each time. *)
Definition attempts (s : Z) (opt : sockopt) (bs : Z) (n : nat) : list Event :=
  (fun i => SysSetsockopt s opt (bs - 16384 * Z.of_nat i)) <$> seq 0 n.

Definition is_setsockopt_on (s : Z) (e : Event) : Prop :=
  exists opt v, e = SysSetsockopt s opt v.

(** Two reactors with the same interest sets and the same [_nfds]. *)
Definition same_interest (w w' : Wire) : Prop :=
  _readfds w' = _readfds w /\ _writefds w' = _writefds w
  /\ _exceptfds w' = _exceptfds w /\ _nfds w' = _nfds w.

(** ** Classes of events *)

(** Every event a computation writes to the log satisfies [Q], from
    whatever state it is run. *)
Definition emits {A} (Q : Event -> Prop) (m : M A) : Prop :=
  forall w, Forall Q (m w).1.2.

Definition handler_call (e : Event) : Prop :=
  match e with
  | CallDatagram _ _ _ _ _ | CallTcpConnect _ _ _ | CallTcpAccept _ _ _ _ _
  | CallTcpClose _ _ | CallTcpData _ _ _ _ | CallTcpWritable _ _ => True
  | _ => False
  end.

(** The blocking wait and the read that drains the pipe. *)
Definition wait_call (e : Event) : Prop :=
  match e with
  | SysSelect _ _ _ _ _ | SysRead _ => True
  | _ => False
  end.

(** The handlers of TCP sockets. *)
Definition tcp_handler_call (e : Event) : Prop :=
  match e with
  | CallTcpConnect _ _ _ | CallTcpAccept _ _ _ _ _
  | CallTcpClose _ _ | CallTcpData _ _ _ _ | CallTcpWritable _ _ => True
  | _ => False
  end.

Definition all_udp (w : Wire) : Prop :=
  Forall (fun p => type p.2 = ZT_WIRE_SOCKET_UDP) (_socks w).

(** [_nfds] not lowered, the pipe untouched. *)
Definition nfds_kept (w w' : Wire) : Prop :=
  _nfds w <= _nfds w'
  /\ _whackReceiveSocket w' = _whackReceiveSocket w
  /\ _whackSendSocket w' = _whackSendSocket w.

(** ** Environments in which something fails *)

Module Adverse.

(** [bind] is refused. *)
Definition bind_refused : OS :=
  {| os_pipe := Some (3, 4);
     os_socket := fun _ _ => 5;
     os_setsockopt := fun _ _ _ => 0;
     os_bind := fun _ _ _ => -1;
     os_sendto := fun _ _ _ _ _ => -1;
     os_send := fun _ _ _ => -1;
     os_select := fun _ r w e _ => (r, w, e);
     os_getpeername := fun _ => -1;
     os_recv := fun _ => (-1, []);
     os_accept := fun _ => (-1, sockaddr_zero);
     os_recvfrom := fun _ => (-1, [], sockaddr_zero);
     os_new_node := Sample.top_alloc |}.


(** Connections arrive on descriptor 6 but no node can be allocated. *)
Definition no_memory : OS :=
  {| os_pipe := Some (3, 4);
     os_socket := fun _ _ => 5;
     os_setsockopt := fun _ _ _ => 0;
     os_bind := fun _ _ _ => 0;
     os_sendto := fun _ _ len _ _ => len;
     os_send := fun _ _ len => len;
     os_select := fun _ r w e _ => (r, w, e);
     os_getpeername := fun _ => 0;
     os_recv := fun _ => (0, []);
     os_accept := fun _ => (6, Sample.peer);
     os_recvfrom := fun _ => (0, [], sockaddr_zero);
     os_new_node := fun _ => None |}.

(** [select] times out: nothing is ready. *)
Definition timed_out : OS :=
  {| os_pipe := Some (3, 4);
     os_socket := fun _ _ => 5;
     os_setsockopt := fun _ _ _ => 0;
     os_bind := fun _ _ _ => 0;
     os_sendto := fun _ _ len _ _ => len;
     os_send := fun _ _ len => len;
     os_select := fun _ _ _ _ _ => (∅, ∅, ∅);
     os_getpeername := fun _ => 0;
     os_recv := fun _ => (0, []);
     os_accept := fun _ => (6, Sample.peer);
     os_recvfrom := fun _ => (0, [], sockaddr_zero);
     os_new_node := Sample.top_alloc |}.

End Adverse.

(** * Properties *)

(** ** Running monadic code *)

Ltac msimp :=
  repeat (progress (cbn; cbv beta iota delta
    [bind ret get modify emit throw undefined try_catch_all try_completed when
     load store handler_exit call_dgHandler call_tcpConnectHandler
     call_tcpCloseHandler call_tcpDataHandler call_tcpWritableHandler
     call_tcpAcceptHandler setsockopt_ push_back back_addr])).

(** Case analysis on the innermost test the execution is stuck on. *)
Ltac split_if :=
  match goal with
  | |- context [if ?c then _ else _] =>
      lazymatch c with
      | context [if _ then _ else _] => fail
      | context [match _ with _ => _ end] => fail
      | _ => destruct c eqn:?
      end
  | |- context [match ?c with Some _ => _ | None => _ end] =>
      lazymatch c with
      | context [if _ then _ else _] => fail
      | context [match _ with _ => _ end] => fail
      | _ => destruct c eqn:?
      end
  end.

Lemma last_snoc_entry (l : list (WireSocket * WireSocketImpl)) x :
  last (l ++ [x]) = Some x.
Proof. apply last_snoc. Qed.

Lemma update_back_snoc f l a e :
  update_back f (l ++ [(a, e)]) = l ++ [(a, f e)].
Proof.
  unfold update_back, update_at_iter. rewrite length_app. simpl.
  replace (Nat.pred (length l + 1)) with (length l + 0)%nat by lia.
  by rewrite alter_app_r.
Qed.

Ltac norm :=
  repeat (progress msimp || rewrite update_back_snoc || rewrite last_snoc_entry).
Ltac mrun := norm; try (split_if; mrun).

Lemma bind_run_Ret {A B} (m : M A) (f : A -> M B) w w1 t1 a :
  m w = (w1, t1, Ret a) ->
  bind m f w = (let '(w2, t2, r) := f a w1 in (w2, t1 ++ t2, r)).
Proof. intros H. unfold bind. rewrite H. by destruct (f a w1) as [[??]?]. Qed.


(** ** The table *)

Lemma erase_update h f l : erase_addr h (update_at_addr h f l) = erase_addr h l.
Proof.
  induction l as [|[a s] l IH]; simpl; [done|].
  destruct (a =? h) eqn:E; simpl; rewrite E; [done|]. by rewrite IH.
Qed.

Lemma deref_elem h l s : deref h l = Some s -> (h, s) ∈ l.
Proof.
  induction l as [|[a s'] l IH]; simpl; [done|].
  destruct (a =? h) eqn:E.
  - apply Z.eqb_eq in E. intros Hs. injection Hs as Hs. subst. left.
  - intros. right. auto.
Qed.

Lemma deref_lookup h s k l :
  NoDup l.*1 -> l !! k = Some (h, s) -> deref h l = Some s.
Proof.
  revert k. induction l as [|[a s'] l IH]; intros k Hnd Hk; [done|].
  simpl. destruct k as [|k]; simpl in Hk.
  - injection Hk as Ha Hs. subst. by rewrite Z.eqb_refl.
  - destruct (a =? h) eqn:E.
    + apply Z.eqb_eq in E. subst. apply NoDup_cons in Hnd as [Hn _].
      destruct Hn. apply list_elem_of_fmap. exists (h, s). split; [done|].
      by eapply list_elem_of_lookup_2.
    + apply NoDup_cons in Hnd as [_ Hnd]. eauto.
Qed.

Lemma erase_lookup h s k l :
  NoDup l.*1 -> l !! k = Some (h, s) -> erase_addr h l = delete k l.
Proof.
  revert k. induction l as [|[a s'] l IH]; intros k Hnd Hk; [done|].
  simpl. destruct k as [|k]; simpl in Hk.
  - injection Hk as Ha Hs. subst. by rewrite Z.eqb_refl.
  - destruct (a =? h) eqn:E.
    + apply Z.eqb_eq in E. subst. apply NoDup_cons in Hnd as [Hn _].
      destruct Hn. apply list_elem_of_fmap. exists (h, s). split; [done|].
      by eapply list_elem_of_lookup_2.
    + apply NoDup_cons in Hnd as [_ Hnd]. simpl. f_equal. eauto.
Qed.

Lemma erase_handles_sub h l a : a ∈ (erase_addr h l).*1 -> a ∈ l.*1.
Proof.
  induction l as [|[b s] l IH]; simpl; [done|].
  destruct (b =? h); simpl; rewrite !elem_of_cons; [auto | intros [?|?]; auto].
Qed.

Lemma erase_NoDup h l : NoDup l.*1 -> NoDup (erase_addr h l).*1.
Proof.
  induction l as [|[b s] l IH]; simpl; [done|].
  rewrite NoDup_cons. intros [Hn Hd].
  destruct (b =? h); simpl; [done|].
  apply NoDup_cons. split; [|auto]. intros Hin. apply Hn.
  by eapply erase_handles_sub.
Qed.

Lemma erase_gone h l : NoDup l.*1 -> h ∉ (erase_addr h l).*1.
Proof.
  induction l as [|[b s] l IH]; simpl; [intros _; apply not_elem_of_nil|].
  rewrite NoDup_cons. intros [Hn Hd].
  destruct (b =? h) eqn:E; simpl.
  - apply Z.eqb_eq in E. by subst.
  - apply Z.eqb_neq in E. rewrite not_elem_of_cons. split; [done|auto].
Qed.

Lemma erase_length h l :
  h ∈ l.*1 -> length l = S (length (erase_addr h l)).
Proof.
  induction l as [|[b s] l IH]; simpl; [by intros ?%elem_of_nil|].
  destruct (b =? h) eqn:E; simpl; [done|].
  apply Z.eqb_neq in E. rewrite elem_of_cons. intros [?|?]; [done|].
  f_equal. auto.
Qed.

Lemma erase_length_le h l : (length (erase_addr h l) <= length l)%nat.
Proof.
  induction l as [|[b s] l IH]; simpl; [done|].
  destruct (b =? h); simpl; lia.
Qed.

Lemma update_at_iter_handles k f l : (update_at_iter k f l).*1 = l.*1.
Proof.
  unfold update_at_iter. revert k.
  induction l as [|[b s] l IH]; intros [|k]; simpl; try done.
  f_equal. apply IH.
Qed.

(** ** [close] *)

Lemma highest_update_uptr h u l n :
  fold_left (fun n p => if sock p.2 >? n then sock p.2 else n)
    (update_at_addr h (set_uptr u) l) n =
  fold_left (fun n (p : WireSocket * WireSocketImpl) =>
               if sock p.2 >? n then sock p.2 else n) l n.
Proof.
  revert n. induction l as [|[a s] l IH]; intros n; simpl; [done|].
  destruct (a =? h); simpl; [done|]. apply IH.
Qed.

Lemma close_run hs h b w sws :
  h <> NULL -> deref h (_socks w) = Some sws ->
  close hs h b w =
    ({| _socks := erase_addr h (_socks w);
        _readfds := FD_CLR (sock sws) (_readfds w);
        _writefds := FD_CLR (sock sws) (_writefds w);
        _exceptfds := FD_CLR (sock sws) (_exceptfds w);
        _nfds := if sock sws >=? _nfds w then highest_sockfd w else _nfds w;
        _whackReceiveSocket := _whackReceiveSocket w;
        _whackSendSocket := _whackSendSocket w;
        _noDelay := _noDelay w |},
     SysClose (sock sws) :: terminal_calls b h sws, Ret tt).
Proof.
  intros Hn Hd. unfold close.
  destruct (h =? NULL) eqn:E; [apply Z.eqb_eq in E; done|].
  unfold terminal_calls, highest_sockfd. destruct sws as [ty fd u sa].
  destruct b, ty; repeat (progress msimp || rewrite Hd).
  all: try (destruct (throws _)); msimp.
  all: destruct (fd >=? _nfds w); msimp;
    rewrite ?erase_update, ?highest_update_uptr; reflexivity.
Qed.

Lemma live_not_null w h sws :
  wf_table w -> deref h (_socks w) = Some sws -> h <> NULL.
Proof.
  intros [_ Hn] Hd Hh. subst h. apply Hn, list_elem_of_fmap.
  exists (NULL, sws). split; [done|]. by apply deref_elem.
Qed.

Lemma FD_CLR_gone fd s : fd ∉ FD_CLR fd s.
Proof.
  unfold FD_CLR. intros [_ H]%elem_of_difference.
  apply H. by apply elem_of_singleton.
Qed.

(** C2.  Closing a live socket with [callHandlers = false] calls no
    handler; with [callHandlers = true] it calls the connect handler with
    [success = false] for a pending outbound socket, the close handler
    for a connected outbound or an inbound socket, and nothing for a
    listening, UDP or raw socket.  In every case the descriptor leaves
    the three interest sets, is closed, and the entry leaves the table. *)
Theorem close_terminal_handler hs h callHandlers w sws :
  wf_table w -> deref h (_socks w) = Some sws ->
  exists w',
    close hs h callHandlers w =
      (w', SysClose (sock sws) :: terminal_calls callHandlers h sws, Ret tt)
    /\ terminal_calls false h sws = []
    /\ (sock sws ∉ _readfds w') /\ (sock sws ∉ _writefds w')
    /\ (sock sws ∉ _exceptfds w')
    /\ _socks w' = erase_addr h (_socks w)
    /\ (h ∉ handles w')
    /\ length (_socks w) = S (length (_socks w')).
Proof.
  intros Hwf Hd. pose proof (live_not_null _ _ _ Hwf Hd) as Hn.
  rewrite (close_run hs h callHandlers w sws Hn Hd).
  eexists. split; [reflexivity|]. cbn.
  repeat split; try apply FD_CLR_gone.
  - apply erase_gone, Hwf.
  - apply erase_length, list_elem_of_fmap. exists (h, sws).
    split; [done|]. by apply deref_elem.
Qed.

(** C10.  [close] on the null handle returns at once: no event, no
    change of state. *)
Theorem close_null hs callHandlers w :
  close hs NULL callHandlers w = (w, [], Ret tt).
Proof. reflexivity. Qed.

(** ** The send functions *)

Lemma to_long_id z : - 2 ^ 63 <= z <= LONG_MAX -> to_long z = z.
Proof.
  unfold to_long, LONG_MAX. intros H.
  rewrite Z.mod_small; lia.
Qed.


(** C8.  [tcpSend] on a live socket makes one [send] call and returns
    the count it reports when that is positive, and 0 otherwise; the
    reactor is unchanged. *)
Theorem tcpSend_accepted_count os h data len w sws :
  deref h (_socks w) = Some sws ->
  - 2 ^ 63 <= os_send os (sock sws) data len <= LONG_MAX ->
  exists r,
    tcpSend os h data len w = (w, [SysSend (sock sws) data len], Ret r)
    /\ (0 < os_send os (sock sws) data len -> r = os_send os (sock sws) data len)
    /\ (os_send os (sock sws) data len <= 0 -> r = 0).
Proof.
  intros Hd Hn. unfold tcpSend. msimp. rewrite Hd. msimp.
  eexists. split; [reflexivity|].
  rewrite to_long_id by done.
  destruct (os_send os (sock sws) data len >? 0) eqn:E.
  - apply Z.gtb_lt in E. split; [|lia]. intros _.
    unfold to_ulong. apply Z.mod_small. unfold LONG_MAX in *. lia.
  - rewrite Z.gtb_ltb in E. apply Z.ltb_ge in E. split; [lia|done].
Qed.

(** ** [tcpListen] and [tcpConnect] *)

(** C6.  Both functions only test the capacity: at capacity they return
    the null handle, below capacity they end without a return value,
    and in neither case is there a system call, a handler call or a
    change to the table. *)
Theorem tcp_creation_only_checks_capacity P a u w :
  tcpListen P a u w = (w, [], if at_capacity P w then Ret NULL else Undefined)
  /\ tcpConnect P a u w = (w, [], if at_capacity P w then Ret NULL else Undefined).
Proof. unfold tcpListen, tcpConnect. msimp. by destruct (at_capacity P w). Qed.

(** ** [udpBind] *)

Lemma set_buffer_size_run fuel os s opt bs w :
  0 <= bs -> bs / 16384 < Z.of_nat fuel ->
  exists t, set_buffer_size fuel os s opt bs w = (w, t, Ret tt).
Proof.
  revert bs. induction fuel as [|fuel IH]; intros bs Hbs Hfuel.
  - exfalso. assert (0 <= bs / 16384) by (apply Z.div_pos; lia). lia.
  - simpl. destruct (bs >=? 65536) eqn:E; [|by eexists].
    msimp. destruct (os_setsockopt os s opt bs =? 0); [by eexists|].
    apply Z.geb_le in E.
    destruct (IH (bs - 16384)) as [t Ht]; [lia| |].
    + replace (bs - 16384) with (bs + (-1) * 16384) by lia.
      rewrite Z.div_add by lia. lia.
    + rewrite Ht. by eexists.
Qed.

Lemma buffer_sizes_run os s b w :
  exists t,
    when (b >? 0)
      (set_buffer_size (buffer_fuel b) os s SO_RCVBUF b;;;
       set_buffer_size (buffer_fuel b) os s SO_SNDBUF b) w = (w, t, Ret tt).
Proof.
  destruct (b >? 0) eqn:E; [|by eexists].
  rewrite Z.gtb_ltb in E. apply Z.ltb_lt in E. cbn [when].
  assert (b / 16384 < Z.of_nat (buffer_fuel b)) as Hf.
  { unfold buffer_fuel. assert (0 <= b / 16384) by (apply Z.div_pos; lia). lia. }
  destruct (set_buffer_size_run (buffer_fuel b) os s SO_RCVBUF b w) as [t1 H1];
    [lia|done|].
  destruct (set_buffer_size_run (buffer_fuel b) os s SO_SNDBUF b w) as [t2 H2];
    [lia|done|].
  rewrite (bind_run_Ret _ _ _ _ _ _ H1), H2. by eexists.
Qed.

Lemma udpBind_effect P os a u b w w' t r :
  udpBind P os a u b w = (w', t, r) ->
  (r = Ret NULL /\ w' = w) \/
  (exists h, os_new_node os (handles w) = Some h /\ r = Ret h
     /\ at_capacity P w = false
     /\ w' = bound_socket w h (os_socket os (sa_family a) (SOCK_DGRAM P)) u a).
Proof.
  unfold udpBind. unfold bind at 1, get.
  destruct (at_capacity P w) eqn:Hcap; [intros [= <- <- <-]; by left|].
  erewrite bind_run_Ret by reflexivity.
  set (s := os_socket os (sa_family a) (SOCK_DGRAM P)).
  destruct (ZT_WIRE_SOCKFD_VALID s); cbn [negb]; [|intros [= <- <- <-]; by left].
  destruct (buffer_sizes_run os s b w) as [tb Hb].
  rewrite (bind_run_Ret _ _ _ _ _ _ Hb). clear Hb.
  unfold handles. mrun; intros [= <- <- <-]; first
    [ by left
    | right; eexists; repeat split; try done; unfold bound_socket;
      match goal with H : (_ >? _) = _ |- _ => by rewrite H end ].
Qed.

(** ** The body of the [poll] loop *)

Lemma FD_ISSET_CLR fd s : FD_ISSET fd (FD_CLR fd s) = false.
Proof. apply bool_decide_eq_false, FD_CLR_gone. Qed.

Lemma lookup_update_at_iter k f l :
  update_at_iter k f l !! k = (fun p => (p.1, f p.2)) <$> l !! k.
Proof. unfold update_at_iter. rewrite list_lookup_alter. by rewrite decide_True. Qed.

Lemma update_at_iter_snoc k f l x y :
  l !! k = Some y ->
  update_at_iter k f (l ++ [x]) = update_at_iter k f l ++ [x].
Proof.
  intros Hk. unfold update_at_iter. apply alter_app_l.
  by eapply lookup_lt_Some.
Qed.

Lemma drop_update_at_iter k f l :
  drop (S k) (update_at_iter k f l) = drop (S k) l.
Proof. unfold update_at_iter. apply drop_alter_lt. lia. Qed.

Lemma drop_snoc k (l : list (WireSocket * WireSocketImpl)) x y :
  l !! k = Some y -> drop (S k) (l ++ [x]) = drop (S k) l ++ [x].
Proof.
  intros Hk. apply drop_app_le. apply lookup_lt_Some in Hk. lia.
Qed.

Ltac split_oracle :=
  match goal with
  | |- context [os_recv ?o ?f] => destruct (os_recv o f) as [? ?] eqn:?
  | |- context [os_accept ?o ?f] => destruct (os_accept o f) as [? ?] eqn:?
  | |- context [os_recvfrom ?o ?f] => destruct (os_recvfrom o f) as [[? ?] ?] eqn:?
  end.

Section PollBody.

Variable P : Platform.
Variables (os : OS) (hs : Handlers) (rfds wfds efds : fd_set).
Variables (k : nat) (h : WireSocket) (s0 : WireSocketImpl) (w : Wire).
Hypothesis Hwf : wf_table w.
Hypothesis Hk : _socks w !! k = Some (h, s0).

Lemma iter_not_null : h <> NULL.
Proof.
  destruct Hwf as [_ Hn]. intros Hh. subst h. apply Hn, list_elem_of_fmap.
  exists (NULL, s0). split; [done|]. by eapply list_elem_of_lookup_2.
Qed.

Lemma iter_deref : deref h (_socks w) = Some s0.
Proof. eapply deref_lookup; [apply Hwf|done]. Qed.

Lemma iter_erase : erase_addr h (_socks w) = delete k (_socks w).
Proof. eapply erase_lookup; [apply Hwf|done]. Qed.

Lemma poll_body_effect w' t r :
  poll_body P os hs rfds wfds efds k h s0 w = (w', t, r) ->
  ((r = Ret true \/ r = Undefined) /\ _socks w' = delete k (_socks w)
   /\ SysClose (sock s0) ∈ t)
  \/ (r = Ret false /\ handles w' = handles w
      /\ drop (S k) (_socks w') = drop (S k) (_socks w))
  \/ (r = Ret false /\ type s0 = ZT_WIRE_SOCKET_TCP_LISTEN
      /\ at_capacity P w = false
      /\ exists a e, os_new_node os (handles w) = Some a
           /\ handles w' = handles w ++ [a]
           /\ drop (S k) (_socks w') = drop (S k) (_socks w) ++ [(a, e)]
           /\ type e = ZT_WIRE_SOCKET_UDP)
  \/ (r = Throw BadAlloc /\ _socks w' = _socks w).
Proof.
  pose proof iter_not_null as Hn. pose proof iter_deref as Hd.
  pose proof iter_erase as He.
  unfold poll_body. destruct s0 as [ty fd u sa].
  destruct ty;
    repeat (progress msimp
            || rewrite (close_run _ _ _ _ _ Hn Hd)
            || rewrite (lookup_app_l_Some _ _ _ _ Hk)
            || rewrite (update_at_iter_snoc _ _ _ _ _ Hk)
            || rewrite lookup_update_at_iter
            || rewrite update_back_snoc
            || rewrite last_snoc_entry
            || rewrite FD_ISSET_CLR
            || rewrite andb_false_r
            || rewrite Hk
            || split_oracle
            || split_if);
    intros [= <- <- <-]; cbn.
  all: try (left; split; [by auto|]; split; [exact He|];
            rewrite !elem_of_cons; by auto 6).
  all: try (right; left; split; [done|]; unfold handles; cbn;
            rewrite ?update_at_iter_handles, ?drop_update_at_iter; done).
  all: try (right; right; right; done).
  all: right; right; left; repeat split; try done.
  all: eexists _, _; split; [reflexivity|]; split;
    [ rewrite fmap_app, update_at_iter_handles; reflexivity
    | split;
      [ erewrite drop_snoc;
        [ by rewrite drop_update_at_iter
        | rewrite lookup_update_at_iter, Hk; reflexivity ]
      | reflexivity ] ].
Qed.
End PollBody.

(** ** Termination of the [poll] loop and the table invariant *)

Lemma listening_app l1 l2 : listening (l1 ++ l2) = (listening l1 + listening l2)%nat.
Proof. induction l1 as [|p l1 IH]; simpl; [done|]. rewrite IH. lia. Qed.

Lemma wf_table_handles w w' : handles w' = handles w -> wf_table w -> wf_table w'.
Proof. unfold wf_table. by intros ->. Qed.

Lemma wf_table_erase w w' h :
  _socks w' = erase_addr h (_socks w) -> wf_table w -> wf_table w'.
Proof.
  unfold wf_table, handles. intros -> [Hnd Hn]. split.
  - by apply erase_NoDup.
  - intros Hin. by apply Hn, (erase_handles_sub h).
Qed.

Lemma wf_table_snoc os w w' a :
  allocator_sound os -> os_new_node os (handles w) = Some a ->
  handles w' = handles w ++ [a] -> wf_table w -> wf_table w'.
Proof.
  unfold wf_table. intros Hos Ha -> [Hnd Hn].
  destruct (Hos _ _ Ha) as [Ha0 Hfresh]. split.
  - apply NoDup_app. split; [done|]. split; [|apply NoDup_singleton].
    intros x Hx ->%list_elem_of_singleton. done.
  - rewrite elem_of_app, list_elem_of_singleton. intros [?|?]; [done|].
    by apply Ha0.
Qed.

Lemma at_capacity_false P w :
  at_capacity P w = false -> (length (_socks w) < FD_SETSIZE P)%nat.
Proof. unfold at_capacity. intros H. apply Nat.leb_gt in H. lia. Qed.

Lemma handles_length w w' :
  handles w' = handles w -> length (_socks w') = length (_socks w).
Proof.
  unfold handles. intros H. by rewrite <-(length_fmap fst), H, length_fmap.
Qed.

Lemma poll_loop_total P os hs rfds wfds efds fuel : forall k w,
  allocator_sound os -> wf_table w ->
  (poll_measure (_socks w) k < fuel)%nat ->
  exists w' t r,
    poll_loop P fuel os hs rfds wfds efds k w = (w', t, r)
    /\ (r = Ret tt \/ r = Throw BadAlloc \/ r = Undefined)
    /\ (r = Undefined -> exists fd, SysClose fd ∈ t)
    /\ wf_table w'
    /\ (length (_socks w') <= Nat.max (length (_socks w)) (FD_SETSIZE P))%nat.
Proof.
  induction fuel as [|fuel IH]; intros k w Hos Hwf Hm; [lia|].
  simpl. unfold bind at 1, get.
  destruct (_socks w !! k) as [[h s0]|] eqn:Hk;
    [|eexists _, _, _; split; [reflexivity|]; split; [by left|];
      split; [done|]; split; [done|lia]].
  assert (drop k (_socks w) = (h, s0) :: drop (S k) (_socks w)) as Hdrop
    by (by apply drop_S).
  pose proof (lookup_lt_Some _ _ _ Hk) as Hlt.
  unfold poll_measure in Hm. rewrite Hdrop in Hm. simpl in Hm.
  destruct (poll_body P os hs rfds wfds efds k h s0 w) as [[w1 t1] r1] eqn:Hb.
  assert (forall w' t r,
            poll_loop P fuel os hs rfds wfds efds (S k) w1 = (w', t, r) ->
            bind (poll_body P os hs rfds wfds efds k h s0)
              (fun erased : bool =>
                 if erased then undefined
                 else poll_loop P fuel os hs rfds wfds efds (S k)) w =
              (w', t1 ++ t, r) \/ r1 <> Ret false) as Hnext.
  { intros w' t r Hrun. destruct r1 as [[]| | |]; try (right; discriminate).
    left. unfold bind. by rewrite Hb, Hrun. }
  destruct (poll_body_effect P os hs rfds wfds efds k h s0 w Hwf Hk _ _ _ Hb)
    as [(Hr1 & Hs & Hin)|[[-> [Hh Hd]]|[[-> (Hty & Hc & a & e & Ha & Hh & Hd & He)]|[-> Hs]]]].
  - (* the node was erased: the iterator is invalid *)
    exists w1, t1, Undefined. split.
    { unfold bind. rewrite Hb. destruct Hr1 as [-> | ->]; cbn;
        by rewrite ?app_nil_r. }
    split; [by auto|]. split; [by eauto|]. split.
    + eapply wf_table_erase; [|done].
      rewrite Hs. symmetry. by eapply iter_erase.
    + rewrite Hs, length_delete by eauto. lia.
  - pose proof (handles_length _ _ Hh) as Hlen.
    destruct (IH (S k) w1) as (w' & t & r & Hrun & Hr & Hu & Hwf' & Hcap');
      [done|..].
    + by eapply wf_table_handles.
    + unfold poll_measure. rewrite Hd, Hlen. lia.
    + destruct (Hnext _ _ _ Hrun) as [Hrun'|]; [|done].
      eexists _, _, _. split; [rewrite Hrun'; reflexivity|]. split; [done|]. split.
      * intros [fd Hfd]%Hu. exists fd. cbn. rewrite elem_of_app. by right.
      * split; [done|lia].
  - assert (length (_socks w1) = S (length (_socks w))) as Hlen.
    { rewrite <-(length_fmap fst (_socks w1)). fold (handles w1).
      rewrite Hh, length_app. unfold handles. rewrite length_fmap. simpl. lia. }
    apply at_capacity_false in Hc.
    destruct (IH (S k) w1) as (w' & t & r & Hrun & Hr & Hu & Hwf' & Hcap');
      [done|..].
    + by eapply wf_table_snoc.
    + unfold poll_measure. rewrite Hd, Hlen, listening_app. simpl.
      unfold is_listen in *. simpl in *. rewrite He. rewrite Hty in Hm. lia.
    + destruct (Hnext _ _ _ Hrun) as [Hrun'|]; [|done].
      eexists _, _, _. split; [rewrite Hrun'; reflexivity|]. split; [done|]. split.
      * intros [fd Hfd]%Hu. exists fd. cbn. rewrite elem_of_app. by right.
      * split; [done|lia].
  - unfold bind. rewrite Hb. eexists _, _, _. split; [reflexivity|].
    split; [by auto|]. split; [done|].
    split; [|rewrite Hs; lia].
    eapply wf_table_handles; [|done]. unfold handles. by rewrite Hs.
Qed.

Lemma poll_measure_start l : (poll_measure l 0 <= 2 * length l)%nat.
Proof.
  unfold poll_measure. rewrite drop_0.
  assert (listening l <= length l)%nat; [|lia].
  induction l as [|p l IH]; simpl; [done|]. destruct (is_listen p); lia.
Qed.

Lemma poll_total P os hs timeout w :
  allocator_sound os -> wf_table w ->
  exists w' t r,
    poll P os hs timeout w = (w', t, r)
    /\ (r = Ret tt \/ r = Throw BadAlloc \/ r = Undefined)
    /\ (r = Undefined -> exists fd, SysClose fd ∈ t)
    /\ wf_table w'
    /\ (length (_socks w') <= Nat.max (length (_socks w)) (FD_SETSIZE P))%nat.
Proof.
  intros Hos Hwf. unfold poll. unfold bind at 1, get.
  erewrite bind_run_Ret by reflexivity.
  destruct (os_select _ _ _ _ _ _) as [[rfds wfds] efds].
  assert (exists tw, when (FD_ISSET (_whackReceiveSocket w) rfds)
            (emit (SysRead (_whackReceiveSocket w))) w = (w, tw, Ret tt))
    as [tw Hw] by (destruct (FD_ISSET _ rfds); by eexists).
  rewrite (bind_run_Ret _ _ _ _ _ _ Hw).
  destruct (poll_loop_total P os hs rfds wfds efds (poll_fuel w) 0 w)
    as (w' & t & r & Hrun & Hr & Hu & Hwf' & Hcap'); try done.
  { unfold poll_fuel. pose proof (poll_measure_start (_socks w)). lia. }
  rewrite Hrun. cbn. eexists _, _, _. split; [reflexivity|].
  split; [done|]. split; [|done].
  intros [fd Hfd]%Hu. exists fd. apply elem_of_cons. right.
  apply elem_of_app. by right.
Qed.

(** The table invariant: distinct non-null addresses, at most
    [FD_SETSIZE] nodes. *)

Lemma exec_invariant P os hs c w :
  allocator_sound os ->
  wf_table w /\ (length (_socks w) <= FD_SETSIZE P)%nat ->
  wf_table (exec P os hs c w)
  /\ (length (_socks (exec P os hs c w)) <= FD_SETSIZE P)%nat.
Proof.
  intros Hos [Hwf Hcap]. destruct c; cbn [exec].
  - destruct (udpBind P os localAddress uptr_ bufferSize w) as [[w' t] r] eqn:E.
    cbn. apply udpBind_effect in E as [[_ ->]|(h & Hh & _ & Hc & ->)]; [done|].
    apply at_capacity_false in Hc. split.
    + eapply wf_table_snoc; [done..| |done]. unfold handles. cbn.
      by rewrite fmap_app.
    + cbn. rewrite length_app. simpl. lia.
  - unfold udpSend. msimp. by destruct (deref sock_ (_socks w)).
  - unfold tcpListen. msimp. by destruct (at_capacity P w).
  - unfold tcpConnect. msimp. by destruct (at_capacity P w).
  - unfold tcpSend. msimp. by destruct (deref sock_ (_socks w)).
  - unfold tcpSetNotifyWritable. msimp.
    by destruct (deref sock_ (_socks w)), notifyWritable.
  - done.
  - destruct (poll_total P os hs timeout w Hos Hwf)
      as (w' & t & r & -> & _ & _ & ? & ?). cbn. split; [done|lia].
  - destruct (sock_ =? NULL) eqn:E.
    { unfold close. by rewrite E. }
    apply Z.eqb_neq in E.
    destruct (deref sock_ (_socks w)) as [sws|] eqn:Hd.
    + rewrite (close_run hs _ callHandlers _ _ E Hd). cbn. split.
      * by eapply (wf_table_erase w _ sock_).
      * pose proof (erase_length_le sock_ (_socks w)). lia.
    + unfold close. apply Z.eqb_neq in E. rewrite E. msimp. by rewrite Hd.
Qed.

Lemma reachable_invariant P w :
  reachable P w ->
  wf_table w /\ (length (_socks w) <= FD_SETSIZE P)%nat.
Proof.
  induction 1 as [os nd t w Hnew|os hs c w Hos _ IH].
  - unfold Wire_new in Hnew. destruct (os_pipe os) as [[p0 p1]|]; [|done].
    injection Hnew as _ <-. cbn. split; [|lia]. split; [constructor|].
    apply not_elem_of_nil.
  - by apply exec_invariant.
Qed.

Lemma at_capacity_true P w :
  (FD_SETSIZE P <= length (_socks w))%nat -> at_capacity P w = true.
Proof. unfold at_capacity. intros. by apply Nat.leb_le. Qed.

(** C3.  In every reachable state [count()] is the number of table
    entries and does not exceed [maxCount()]; at capacity the three
    creation functions return the null handle without any event and
    without touching the reactor. *)
Theorem count_bounded_creation_fails_closed P w :
  reachable P w ->
  count w = (w, [], Ret (Z.of_nat (length (_socks w))))
  /\ Z.of_nat (length (_socks w)) <= maxCount P
  /\ (maxCount P <= Z.of_nat (length (_socks w)) ->
      forall os a u b,
        udpBind P os a u b w = (w, [], Ret NULL)
        /\ tcpConnect P a u w = (w, [], Ret NULL)
        /\ tcpListen P a u w = (w, [], Ret NULL)).
Proof.
  intros Hr. destruct (reachable_invariant P w Hr) as [_ Hcap].
  split; [reflexivity|]. split; [unfold maxCount; lia|].
  intros Hfull os a u b.
  assert (at_capacity P w = true) as Hc
    by (apply at_capacity_true; unfold maxCount in Hfull; lia).
  unfold udpBind, tcpConnect, tcpListen. msimp. by rewrite Hc.
Qed.

(** C5, as the code has it.  In every reachable state the handles of
    the live sockets are pairwise distinct and non-null, and a handle
    [udpBind] returns is none of the handles live at the call. *)
Theorem live_handles_distinct P w :
  reachable P w ->
  NoDup (handles w) /\ (NULL ∉ handles w)
  /\ (forall os a u b w' t h,
        allocator_sound os ->
        udpBind P os a u b w = (w', t, Ret h) -> h <> NULL ->
        (h ∉ handles w) /\ handles w' = handles w ++ [h]).
Proof.
  intros Hr. destruct (reachable_invariant P w Hr) as [[Hnd Hn] _].
  split; [done|]. split; [done|].
  intros os a u b w' t h Hos Hrun Hh.
  apply udpBind_effect in Hrun as [[Hnull _]|(h' & Hnew & Hret & _ & ->)];
    [by injection Hnull as Hnull|].
  injection Hret as <-.
  split; [by apply (Hos _ _ Hnew)|].
  unfold handles. cbn. by rewrite fmap_app.
Qed.

(** ** Handler exceptions *)












(** ** The TCP state machine in [poll] *)

Lemma update_at_iter_insert k f l h s :
  l !! k = Some (h, s) -> update_at_iter k f l = <[k := (h, f s)]> l.
Proof.
  intros Hk. unfold update_at_iter. revert k Hk.
  induction l as [|p l IH]; intros [|k] Hk; simpl in *; try done.
  - by injection Hk as ->.
  - f_equal. by apply IH.
Qed.

(** C4.  A pending outbound socket met by the loop of [poll]: when its
    descriptor is in the exceptional set it is closed and the connect
    handler is called with [success = false]; otherwise, when it is in
    the writable set, [getpeername] is called, and its failure closes
    the socket the same way, while its success makes the socket
    connected, registers it for reading only and calls the connect
    handler with [success = true]. *)
Theorem pending_connect_resolved P os hs rfds wfds efds k h s0 w :
  wf_table w -> _socks w !! k = Some (h, s0) ->
  type s0 = ZT_WIRE_SOCKET_TCP_OUT_PENDING ->
  exists w' t r,
    poll_body P os hs rfds wfds efds k h s0 w = (w', t, r)
    /\ (FD_ISSET (sock s0) efds = true ->
        t = [SysClose (sock s0); CallTcpConnect h (uptr s0) false]
        /\ r = Ret true /\ closed_at k (sock s0) w w' /\ (h ∉ handles w'))
    /\ (FD_ISSET (sock s0) efds = false ->
        FD_ISSET (sock s0) wfds = true ->
        (os_getpeername os (sock s0) <> 0 ->
         t = [SysGetpeername (sock s0); SysClose (sock s0);
              CallTcpConnect h (uptr s0) false]
         /\ r = Ret true /\ closed_at k (sock s0) w w' /\ (h ∉ handles w'))
        /\ (os_getpeername os (sock s0) = 0 ->
            t = [SysGetpeername (sock s0); CallTcpConnect h (uptr s0) true]
            /\ r = Ret false
            /\ _socks w' =
                 <[k := (h, set_uptr
                              (new_uptr (_tcpConnectHandler hs h (uptr s0) true))
                              (set_type ZT_WIRE_SOCKET_TCP_OUT_CONNECTED s0))]>
                   (_socks w)
            /\ _readfds w' = FD_SET (sock s0) (_readfds w)
            /\ _writefds w' = FD_CLR (sock s0) (_writefds w)
            /\ _exceptfds w' = FD_CLR (sock s0) (_exceptfds w))).
Proof.
  intros Hwf Hk Hty.
  pose proof (iter_not_null _ _ _ _ Hwf Hk) as Hn.
  pose proof (iter_deref _ _ _ _ Hwf Hk) as Hd.
  pose proof (iter_erase _ _ _ _ Hwf Hk) as He.
  assert (h ∉ (delete k (_socks w)).*1) as Hgone
    by (rewrite <-He; apply erase_gone, Hwf).
  unfold poll_body. destruct s0 as [ty fd u sa]. cbn in Hty. subst ty.
  cbn [type sock uptr].
  destruct (FD_ISSET fd efds) eqn:Hex.
  { rewrite (bind_run_Ret _ _ _ _ _ _ (close_run hs h true w _ Hn Hd)).
    cbn. eexists _, _, _. split; [reflexivity|]. split; [|done].
    intros _. unfold closed_at, handles. cbn. rewrite He. done. }
  destruct (FD_ISSET fd wfds) eqn:Hwr.
  2:{ msimp. eexists _, _, _. split; [reflexivity|]. done. }
  erewrite bind_run_Ret by reflexivity.
  destruct (os_getpeername os fd =? 0) eqn:Hpeer; cbn [negb].
  - apply Z.eqb_eq in Hpeer.
    repeat (progress msimp || rewrite lookup_update_at_iter || rewrite Hk).
    assert (forall f g, update_at_iter k f (update_at_iter k g (_socks w)) =
              <[k := (h, f (g {| type := ZT_WIRE_SOCKET_TCP_OUT_PENDING;
                                sock := fd; uptr := u; saddr := sa |}))]> (_socks w))
      as Hupd.
    { intros f g. rewrite (update_at_iter_insert k g _ _ _ Hk).
      erewrite update_at_iter_insert
        by (apply list_lookup_insert_eq; by eapply lookup_lt_Some).
      apply list_insert_insert_eq. }
    destruct (throws _); msimp; rewrite Hupd;
      (eexists _, _, _; split; [reflexivity|]; split; [done|]; intros _ _;
       split; [by intros ?|]; intros _; cbn; done).
  - apply Z.eqb_neq in Hpeer.
    rewrite (bind_run_Ret _ _ _ _ _ _ (close_run hs h true w _ Hn Hd)).
    cbn. eexists _, _, _. split; [reflexivity|]. split; [done|].
    intros _ _. split; [|by intros ?]. intros _.
    unfold closed_at, handles. cbn. rewrite He. done.
Qed.

(** The accept branch, for a listening socket whose descriptor is
    readable, when [accept] succeeds below capacity and the node is
    allocated: the node appended is typed UDP, and its descriptor field
    is assigned the iterator, not the accepted descriptor. *)
Lemma poll_body_accept P os hs rfds wfds efds k h s0 w newSock ss a :
  _socks w !! k = Some (h, s0) ->
  type s0 = ZT_WIRE_SOCKET_TCP_LISTEN ->
  FD_ISSET (sock s0) rfds = true ->
  os_accept os (sock s0) = (newSock, ss) ->
  ZT_WIRE_SOCKFD_VALID newSock = true ->
  at_capacity P w = false ->
  os_new_node os (handles w) = Some a ->
  let o := _tcpAcceptHandler hs h a (uptr s0) 0 ss in
  poll_body P os hs rfds wfds efds k h s0 w =
    ({| _socks :=
          <[k := (h, set_uptr (new_uptrL o) s0)]> (_socks w) ++
          [(a, {| type := ZT_WIRE_SOCKET_UDP;
                  sock := iterator_as_sockfd P h;
                  uptr := new_uptrN o; saddr := ss |})];
        _readfds := FD_SET newSock (_readfds w);
        _writefds := _writefds w; _exceptfds := _exceptfds w;
        _nfds := if newSock >? _nfds w then newSock else _nfds w;
        _whackReceiveSocket := _whackReceiveSocket w;
        _whackSendSocket := _whackSendSocket w; _noDelay := _noDelay w |},
     [SysAccept (sock s0);
      SysSetsockopt newSock TCP_NODELAY (if _noDelay w then 1 else 0);
      SysSetNonblock newSock;
      CallTcpAccept h a (uptr s0) 0 ss],
     Ret false).
Proof.
  intros Hk Hty Hrd Hacc Hvalid Hcap Hnew o. subst o.
  unfold poll_body. destruct s0 as [ty fd u sa]. cbn in *. subst ty.
  rewrite Hrd. cbn [when].
  repeat (progress msimp
          || rewrite Hacc || rewrite Hvalid || rewrite Hcap || rewrite Hnew
          || rewrite (lookup_app_l_Some _ _ _ _ Hk)
          || rewrite (update_at_iter_snoc _ _ _ _ _ Hk)
          || rewrite update_back_snoc
          || rewrite last_snoc_entry
          || match goal with
             | |- context [if accept_throws ?x then _ else _] =>
                 destruct (accept_throws x)
             | |- context [if newSock >? ?n then _ else _] =>
                 destruct (newSock >? n)
             end);
    rewrite (update_at_iter_insert _ _ _ _ _ Hk); reflexivity.
Qed.

Lemma top_alloc_bound l x :
  x ∈ l -> x <= fold_right Z.max 4032 l.
Proof.
  induction l as [|y l IH]; simpl; [by intros ?%elem_of_nil|].
  rewrite elem_of_cons. intros [->|Hx]; [lia|]. specialize (IH Hx). lia.
Qed.

Lemma top_alloc_floor l : 4032 <= fold_right Z.max 4032 l.
Proof. induction l as [|y l IH]; simpl; lia. Qed.

Lemma os_ok_sound fd : allocator_sound (Sample.os_ok fd).
Proof.
  intros l a. cbn. unfold Sample.top_alloc. intros [= <-]. split.
  - pose proof (top_alloc_floor l). unfold NULL. lia.
  - intros Hin%top_alloc_bound. lia.
Qed.

Lemma fresh_reachable P : reachable P Sample.fresh.
Proof. by apply (reachable_new P (Sample.os_ok 5) true [SysPipe]). Qed.

(** ** Worked examples *)

(** The buffer back-off of [udpBind]: 131072 and 114688 are refused,
    98304 is accepted and the loop stops. *)
Example buffer_backoff :
  set_buffer_size (buffer_fuel 131072) (Sample.os_ok 5) 5 SO_RCVBUF 131072
    Sample.fresh =
  (Sample.fresh,
   [SysSetsockopt 5 SO_RCVBUF 131072; SysSetsockopt 5 SO_RCVBUF 114688;
    SysSetsockopt 5 SO_RCVBUF 98304],
   Ret tt).
Proof. vm_compute. reflexivity. Qed.

(** A request below 65536 is not passed to the system at all. *)
Example buffer_small :
  set_buffer_size (buffer_fuel 4096) (Sample.os_ok 5) 5 SO_SNDBUF 4096
    Sample.fresh = (Sample.fresh, [], Ret tt).
Proof. vm_compute. reflexivity. Qed.

Example udpBind_fresh :
  udpBind Sample.linux (Sample.os_ok 5) Sample.loopback 9 0 Sample.fresh =
  (bound_socket Sample.fresh 4096 5 9 Sample.loopback,
   [SysSocket 2 2; SysSetsockopt 5 SO_REUSEADDR 0;
    SysSetsockopt 5 SO_BROADCAST 1; SysSetsockopt 5 IP_MTU_DISCOVER 0;
    SysBind 5 Sample.loopback 16; SysSetNonblock 5],
   Ret 4096).
Proof. vm_compute. reflexivity. Qed.

(** One pass of [poll] over a table of four sockets, every handler
    throwing: the pending connect completes, the connected socket
    delivers data and writability, the listener accepts, the UDP socket
    delivers a datagram. *)
Example poll_steady :
  let r := poll Sample.linux (Sample.os_ok 9) Sample.throwing 0 Sample.steady in
  r.1.2 =
    [SysSelect 9 {[ 6; 7; 8 ]} {[ 5; 6 ]} ∅ None;
     SysGetpeername 5; CallTcpConnect 4096 1 true;
     SysRecv 6; CallTcpData 4160 2 [Byte.x00] 1; CallTcpWritable 4160 2;
     SysAccept 7; SysSetsockopt 9 TCP_NODELAY 1; SysSetNonblock 9;
     CallTcpAccept 4224 4352 3 0 Sample.peer;
     SysRecvfrom 8; CallDatagram 4288 4 Sample.peer [Byte.x00] 1]
  /\ r.2 = Ret tt.
Proof. split; vm_compute; reflexivity. Qed.

(** The same pass when the pending connect has failed: the socket is
    closed and its node erased, and the increment of the iterator that
    follows is undefined; the pass does not get to the other sockets. *)
Example poll_mixed :
  let r := poll Sample.linux (Sample.os_ok 9) Sample.quiet 0 Sample.mixed in
  r.1.2 =
    [SysSelect 9 {[ 6; 7; 8 ]} {[ 5; 6 ]} {[ 5 ]} None;
     SysClose 5; CallTcpConnect 4096 1 false]
  /\ r.2 = Undefined.
Proof. split; vm_compute; reflexivity. Qed.

(** Binding one more socket than [maxCount()] allows. *)
Example bind_beyond_capacity :
  udpBind Sample.tiny (Sample.os_ok 7) Sample.loopback 3 0 Sample.two_sockets =
  (Sample.two_sockets, [], Ret NULL)
  /\ count Sample.two_sockets = (Sample.two_sockets, [], Ret (maxCount Sample.tiny)).
Proof. split; vm_compute; reflexivity. Qed.

(** C5 as stated fails: with an allocator that reuses the memory of the
    node just freed, the socket bound after the close gets the handle of
    the socket closed. *)
Lemma handle_reissued_after_close :
  ~ handle_never_reissued Sample.linux.
Proof.
  intros H.
  pose (os := Sample.os_ok 5).
  pose (r1 := udpBind Sample.linux os Sample.loopback 1 0 Sample.fresh).
  pose (r2 := close Sample.quiet 4096 true r1.1.1).
  pose (r3 := udpBind Sample.linux os Sample.loopback 2 0 r2.1.1).
  apply (H os os Sample.quiet Sample.loopback 1 0 Sample.loopback 2 0 true
           Sample.fresh r1.1.1 r1.1.2 4096 r2.1.1 r2.1.2 r3.1.1 r3.1.2 4096).
  - apply fresh_reachable.
  - apply os_ok_sound.
  - apply os_ok_sound.
  - vm_compute. reflexivity.
  - discriminate.
  - vm_compute. reflexivity.
  - vm_compute. reflexivity.
  - discriminate.
  - reflexivity.
Qed.


(** ** The theorems at concrete reactors *)

Ltac by_evaluation :=
  match goal with
  | |- ?G => apply (@bool_decide_unpack G _); vm_compute; exact I
  end.
Ltac wf_by_evaluation := unfold wf_table, handles; split; by_evaluation.

(** Closing a pending outbound socket whose connect handler throws. *)
Lemma close_terminal_handler_witness :
  wf_table (Sample.single ZT_WIRE_SOCKET_TCP_OUT_PENDING)
  /\ exists w',
       close Sample.throwing 4096 true
         (Sample.single ZT_WIRE_SOCKET_TCP_OUT_PENDING) =
         (w', [SysClose 5; CallTcpConnect 4096 7 false], Ret tt)
       /\ (5 ∉ _readfds w') /\ (5 ∉ _writefds w') /\ (5 ∉ _exceptfds w')
       /\ _socks w' = [].
Proof.
  assert (wf_table (Sample.single ZT_WIRE_SOCKET_TCP_OUT_PENDING)) as Hwf
    by wf_by_evaluation.
  split; [exact Hwf|].
  destruct (close_terminal_handler Sample.throwing 4096 true
              (Sample.single ZT_WIRE_SOCKET_TCP_OUT_PENDING)
              (Sample.entry ZT_WIRE_SOCKET_TCP_OUT_PENDING 5 7) Hwf eq_refl)
    as (w' & Hrun & _ & Hr & Hw & He & Hs & _).
  exists w'. repeat split; done.
Defined.

(** A reactor with room for two sockets, after two binds. *)
Lemma count_bounded_creation_fails_closed_witness :
  reachable Sample.tiny Sample.two_sockets
  /\ maxCount Sample.tiny <= Z.of_nat (length (_socks Sample.two_sockets))
  /\ count Sample.two_sockets = (Sample.two_sockets, [], Ret 2)
  /\ udpBind Sample.tiny (Sample.os_ok 7) Sample.loopback 3 0 Sample.two_sockets
       = (Sample.two_sockets, [], Ret NULL)
  /\ tcpConnect Sample.tiny Sample.peer 3 Sample.two_sockets
       = (Sample.two_sockets, [], Ret NULL)
  /\ tcpListen Sample.tiny Sample.loopback 3 Sample.two_sockets
       = (Sample.two_sockets, [], Ret NULL).
Proof.
  assert (reachable Sample.tiny Sample.two_sockets) as Hr.
  { unfold Sample.two_sockets.
    repeat (apply reachable_step; [apply os_ok_sound|]).
    apply fresh_reachable. }
  assert (maxCount Sample.tiny <= Z.of_nat (length (_socks Sample.two_sockets)))
    as Hfull by (vm_compute; discriminate).
  destruct (count_bounded_creation_fails_closed Sample.tiny Sample.two_sockets Hr)
    as (Hc & _ & Hfail).
  destruct (Hfail Hfull (Sample.os_ok 7) Sample.loopback 3 0) as (Hb & _ & Hl).
  destruct (Hfail Hfull (Sample.os_ok 7) Sample.peer 3 0) as (_ & Hcn & _).
  repeat split; done.
Defined.

(** A pending outbound socket met with its descriptor exceptional, and
    met with its descriptor writable only. *)
Lemma pending_connect_resolved_witness :
  wf_table (Sample.single ZT_WIRE_SOCKET_TCP_OUT_PENDING)
  /\ (exists w',
        poll_body Sample.linux (Sample.os_ok 6) Sample.throwing ∅ {[ 5 ]} {[ 5 ]}
          0 4096 (Sample.entry ZT_WIRE_SOCKET_TCP_OUT_PENDING 5 7)
          (Sample.single ZT_WIRE_SOCKET_TCP_OUT_PENDING) =
          (w', [SysClose 5; CallTcpConnect 4096 7 false], Ret true)
        /\ _socks w' = [])
  /\ (exists w',
        poll_body Sample.linux (Sample.os_ok 6) Sample.throwing ∅ {[ 5 ]} ∅
          0 4096 (Sample.entry ZT_WIRE_SOCKET_TCP_OUT_PENDING 5 7)
          (Sample.single ZT_WIRE_SOCKET_TCP_OUT_PENDING) =
          (w', [SysGetpeername 5; CallTcpConnect 4096 7 true], Ret false)
        /\ _socks w' = [(4096, Sample.entry ZT_WIRE_SOCKET_TCP_OUT_CONNECTED 5 7)]
        /\ _readfds w' = FD_SET 5 ∅ /\ _writefds w' = FD_CLR 5 {[ 5 ]}
        /\ _exceptfds w' = FD_CLR 5 {[ 5 ]}).
Proof.
  assert (wf_table (Sample.single ZT_WIRE_SOCKET_TCP_OUT_PENDING)) as Hwf
    by wf_by_evaluation.
  split; [exact Hwf|]. split.
  - destruct (pending_connect_resolved Sample.linux (Sample.os_ok 6)
                Sample.throwing ∅ {[ 5 ]} {[ 5 ]} 0 4096
                (Sample.entry ZT_WIRE_SOCKET_TCP_OUT_PENDING 5 7)
                (Sample.single ZT_WIRE_SOCKET_TCP_OUT_PENDING)
                Hwf eq_refl eq_refl)
      as (w' & t & r & Hrun & Hex & _).
    destruct (Hex eq_refl) as (-> & -> & (Hs & _) & _).
    exists w'. split; [exact Hrun|exact Hs].
  - destruct (pending_connect_resolved Sample.linux (Sample.os_ok 6)
                Sample.throwing ∅ {[ 5 ]} ∅ 0 4096
                (Sample.entry ZT_WIRE_SOCKET_TCP_OUT_PENDING 5 7)
                (Sample.single ZT_WIRE_SOCKET_TCP_OUT_PENDING)
                Hwf eq_refl eq_refl)
      as (w' & t & r & Hrun & _ & Hwr).
    destruct (Hwr eq_refl eq_refl) as (_ & Hok).
    destruct (Hok eq_refl) as (-> & -> & Hs & Hr & Hw & He).
    exists w'. repeat split; done.
Defined.

(** The handles of two sockets bound one after the other. *)
Lemma live_handles_distinct_witness :
  reachable Sample.tiny Sample.two_sockets
  /\ NoDup (handles Sample.two_sockets)
  /\ handles Sample.two_sockets = [4096; 4160].
Proof.
  assert (reachable Sample.tiny Sample.two_sockets) as Hr.
  { unfold Sample.two_sockets.
    repeat (apply reachable_step; [apply os_ok_sound|]).
    apply fresh_reachable. }
  split; [exact Hr|]. split; [|reflexivity].
  exact (proj1 (live_handles_distinct Sample.tiny Sample.two_sockets Hr)).
Defined.


(** Four bytes accepted on a connected socket. *)
Lemma tcpSend_accepted_count_witness :
  exists r,
    tcpSend (Sample.os_ok 6) 4096 Sample.ping 4
      (Sample.single ZT_WIRE_SOCKET_TCP_OUT_CONNECTED) =
      (Sample.single ZT_WIRE_SOCKET_TCP_OUT_CONNECTED,
       [SysSend 5 Sample.ping 4], Ret r)
    /\ (0 < 4 -> r = 4) /\ (4 <= 0 -> r = 0).
Proof.
  apply (tcpSend_accepted_count (Sample.os_ok 6) 4096 Sample.ping 4
           (Sample.single ZT_WIRE_SOCKET_TCP_OUT_CONNECTED)
           (Sample.entry ZT_WIRE_SOCKET_TCP_OUT_CONNECTED 5 7)).
  - reflexivity.
  - unfold LONG_MAX. cbn. lia.
Defined.

(** * Further properties of the reactor *)

(** ** The destructor *)

Lemma close_all_run hs : forall l fuel w,
  _socks w = l -> wf_table w -> (length l < fuel)%nat ->
  exists w',
    close_all fuel hs w = (w', l ≫= teardown_log, Ret tt)
    /\ _socks w' = []
    /\ _whackReceiveSocket w' = _whackReceiveSocket w
    /\ _whackSendSocket w' = _whackSendSocket w
    /\ (forall fd, fd ∈ _readfds w' <-> fd ∈ _readfds w /\ fd ∉ table_fds l)
    /\ (forall fd, fd ∈ _writefds w' <-> fd ∈ _writefds w /\ fd ∉ table_fds l)
    /\ (forall fd, fd ∈ _exceptfds w' <-> fd ∈ _exceptfds w /\ fd ∉ table_fds l).
Proof.
  induction l as [|[h s] l IH]; intros fuel w Hl Hwf Hfuel;
    (destruct fuel as [|fuel]; [simpl in Hfuel; lia|]).
  - simpl. unfold bind, get. rewrite Hl. cbn. exists w.
    split; [reflexivity|]. split; [done|]. split; [done|]. split; [done|].
    repeat split; try (by intros [? _]); try done; apply not_elem_of_nil.
  - simpl. unfold bind at 1, get. rewrite Hl. cbn beta iota.
    assert (h <> NULL) as Hn.
    { destruct Hwf as [_ Hn]. intros ->. apply Hn. unfold handles.
      rewrite Hl. left. }
    assert (deref h (_socks w) = Some s) as Hd
      by (rewrite Hl; simpl; by rewrite Z.eqb_refl).
    rewrite (bind_run_Ret _ _ _ _ _ _ (close_run hs h true w s Hn Hd)).
    set (w1 := {| _socks := erase_addr h (_socks w) |}).
    destruct (IH fuel w1) as (w' & Hrun & Hs & Hr & Hsnd & Hrd & Hwr & Hex).
    { subst w1. cbn. rewrite Hl. simpl. by rewrite Z.eqb_refl. }
    { eapply (wf_table_erase w _ h); [reflexivity|done]. }
    { simpl in Hfuel. lia. }
    rewrite Hrun. exists w'. split; [reflexivity|].
    split; [done|]. split; [done|]. split; [done|].
    unfold table_fds. cbn [fmap list_fmap].
    (split; [|split]); intros fd; rewrite ?Hrd, ?Hwr, ?Hex; subst w1; cbn;
      unfold FD_CLR; rewrite elem_of_difference, elem_of_singleton,
        not_elem_of_cons; tauto.
Qed.

(** X1.  The destructor on a well-formed table closes every socket in
    table order, calling the terminal handler each kind is owed, then
    closes the two ends of the pipe; it leaves the table empty and none
    of the sockets' descriptors in an interest set. *)
Theorem destructor_closes_everything hs w :
  wf_table w ->
  exists w',
    Wire_destroy hs w =
      (w',
       (_socks w ≫= teardown_log) ++
       [SysClose (_whackReceiveSocket w); SysClose (_whackSendSocket w)],
       Ret tt)
    /\ _socks w' = []
    /\ (forall fd, fd ∈ table_fds (_socks w) ->
          (fd ∉ _readfds w') /\ (fd ∉ _writefds w') /\ (fd ∉ _exceptfds w')).
Proof.
  intros Hwf. unfold Wire_destroy. unfold bind at 1, get.
  destruct (close_all_run hs (_socks w) (S (length (_socks w))) w eq_refl Hwf)
    as (w' & Hrun & Hs & _ & _ & Hrd & Hwr & Hex); [lia|].
  rewrite (bind_run_Ret _ _ _ _ _ _ Hrun). cbn.
  exists w'. split; [reflexivity|]. split; [done|].
  intros fd Hfd. rewrite Hrd, Hwr, Hex. tauto.
Qed.

(** ** [close] and the other sockets *)

Lemma deref_erase_ne h h' l :
  h' <> h -> deref h' (erase_addr h l) = deref h' l.
Proof.
  intros Hne. induction l as [|[a s] l IH]; simpl; [done|].
  destruct (a =? h) eqn:E; simpl.
  - apply Z.eqb_eq in E. subst a.
    destruct (h =? h') eqn:E'; [apply Z.eqb_eq in E'; by subst|done].
  - by rewrite IH.
Qed.

Lemma erase_sublist h l : sublist (erase_addr h l) l.
Proof.
  induction l as [|[a s] l IH]; simpl; [done|].
  destruct (a =? h); [by apply sublist_cons|by apply sublist_skip].
Qed.

(** X2.  Closing a live socket leaves every other socket as it is: the
    entry behind any other handle is unchanged, the remaining entries
    keep their order, and a descriptor other than the closed one is in
    an interest set afterwards exactly when it was before. *)
Theorem close_leaves_others hs h callHandlers w sws :
  h <> NULL -> deref h (_socks w) = Some sws ->
  let w' := (close hs h callHandlers w).1.1 in
  (forall h', h' <> h -> deref h' (_socks w') = deref h' (_socks w))
  /\ sublist (_socks w') (_socks w)
  /\ (forall fd, fd <> sock sws ->
        (fd ∈ _readfds w' <-> fd ∈ _readfds w)
        /\ (fd ∈ _writefds w' <-> fd ∈ _writefds w)
        /\ (fd ∈ _exceptfds w' <-> fd ∈ _exceptfds w)).
Proof.
  intros Hn Hd. rewrite (close_run hs h callHandlers w sws Hn Hd). cbn.
  split; [intros h' Hne; by apply deref_erase_ne|].
  split; [apply erase_sublist|].
  intros fd Hfd. unfold FD_CLR.
  rewrite !elem_of_difference, !elem_of_singleton. tauto.
Qed.

(** ** [udpBind] *)

Lemma attempts_S s opt bs n :
  attempts s opt bs (S n) =
  SysSetsockopt s opt bs :: attempts s opt (bs - 16384) n.
Proof.
  unfold attempts. simpl. rewrite Z.mul_0_r, Z.sub_0_r. f_equal.
  rewrite <-fmap_S_seq, <-list_fmap_compose. apply list_fmap_ext.
  intros _ i _. simpl. f_equal. lia.
Qed.

Lemma set_buffer_size_attempts os s opt fuel : forall bs w,
  0 <= bs -> bs / 16384 < Z.of_nat fuel ->
  exists n,
    set_buffer_size fuel os s opt bs w = (w, attempts s opt bs n, Ret tt)
    /\ (forall i, (i < n)%nat -> 65536 <= bs - 16384 * Z.of_nat i)
    /\ (forall i, (S i < n)%nat ->
          os_setsockopt os s opt (bs - 16384 * Z.of_nat i) <> 0)
    /\ (n = 0%nat <-> bs < 65536)
    /\ (forall i, n = S i ->
          os_setsockopt os s opt (bs - 16384 * Z.of_nat i) <> 0 ->
          bs - 16384 * Z.of_nat n < 65536).
Proof.
  induction fuel as [|fuel IH]; intros bs w Hbs Hfuel.
  - exfalso. assert (0 <= bs / 16384) by (apply Z.div_pos; lia). lia.
  - simpl. destruct (bs >=? 65536) eqn:E.
    2:{ rewrite Z.geb_leb in E. apply Z.leb_gt in E. exists 0%nat.
        split; [reflexivity|].
        split; [intros; lia|]. split; [intros; lia|]. split; [done|].
        intros; lia. }
    apply Z.geb_le in E. msimp.
    destruct (os_setsockopt os s opt bs =? 0) eqn:Eok.
    + apply Z.eqb_eq in Eok. exists 1%nat. split; [by rewrite attempts_S|].
      split; [|split; [|split]].
      * intros i Hi. assert (i = 0%nat) by lia. subst. lia.
      * intros; lia.
      * lia.
      * intros i [= <-]. rewrite Z.mul_0_r, Z.sub_0_r. done.
    + apply Z.eqb_neq in Eok.
      destruct (IH (bs - 16384) w) as (n & Hrun & Hfloor & Hrefused & Hzero & Hend).
      { lia. }
      { replace (bs - 16384) with (bs + (-1) * 16384) by lia.
        rewrite Z.div_add by lia. lia. }
      rewrite Hrun. exists (S n). split; [by rewrite attempts_S|].
      split; [|split; [|split]].
      * intros [|i] Hi; [lia|]. specialize (Hfloor i). lia.
      * intros [|i] Hi; [by rewrite Z.mul_0_r, Z.sub_0_r|].
        replace (bs - 16384 * Z.of_nat (S i))
          with (bs - 16384 - 16384 * Z.of_nat i) by lia.
        apply Hrefused. lia.
      * lia.
      * intros i [= <-] Hlast. destruct n as [|n'].
        -- assert (bs - 16384 < 65536) by (by apply Hzero). lia.
        -- replace (bs - 16384 * Z.of_nat (S (S n')))
             with (bs - 16384 - 16384 * Z.of_nat (S n')) by lia.
           apply (Hend n' eq_refl).
           replace (bs - 16384 - 16384 * Z.of_nat n')
             with (bs - 16384 * Z.of_nat (S n')) by lia. done.
Qed.

(** X3.  The buffer loop of [udpBind], for a requested size that is not
    negative, asks for the requested size first and 16384 less each
    time, never for less than 65536; it stops at the first size the
    system accepts, gives up only when the next size would be below
    65536, makes no request at all for a size below 65536, and never
    changes the reactor or fails. *)
Theorem buffer_backoff_schedule os s opt bs w :
  0 <= bs ->
  exists n,
    set_buffer_size (buffer_fuel bs) os s opt bs w =
      (w, attempts s opt bs n, Ret tt)
    /\ (forall i, (i < n)%nat -> 65536 <= bs - 16384 * Z.of_nat i)
    /\ (forall i, (S i < n)%nat ->
          os_setsockopt os s opt (bs - 16384 * Z.of_nat i) <> 0)
    /\ (n = 0%nat <-> bs < 65536)
    /\ (forall i, n = S i ->
          os_setsockopt os s opt (bs - 16384 * Z.of_nat i) <> 0 ->
          bs - 16384 * Z.of_nat n < 65536).
Proof.
  intros Hbs. apply set_buffer_size_attempts; [done|].
  unfold buffer_fuel. assert (0 <= bs / 16384) by (apply Z.div_pos; lia). lia.
Qed.

Lemma attempts_setsockopt s opt bs n :
  Forall (is_setsockopt_on s) (attempts s opt bs n).
Proof.
  unfold attempts. apply Forall_fmap, Forall_forall. intros i _.
  by eexists _, _.
Qed.

Lemma buffer_sizes_log os s b w :
  exists tb,
    when (b >? 0)
      (set_buffer_size (buffer_fuel b) os s SO_RCVBUF b;;;
       set_buffer_size (buffer_fuel b) os s SO_SNDBUF b) w = (w, tb, Ret tt)
    /\ Forall (is_setsockopt_on s) tb.
Proof.
  destruct (b >? 0) eqn:E; [|by exists []].
  rewrite Z.gtb_ltb in E. apply Z.ltb_lt in E. cbn [when].
  assert (b / 16384 < Z.of_nat (buffer_fuel b)) as Hf.
  { unfold buffer_fuel. assert (0 <= b / 16384) by (apply Z.div_pos; lia). lia. }
  destruct (set_buffer_size_attempts os s SO_RCVBUF (buffer_fuel b) b w)
    as (n1 & H1 & _); [lia|done|].
  destruct (set_buffer_size_attempts os s SO_SNDBUF (buffer_fuel b) b w)
    as (n2 & H2 & _); [lia|done|].
  rewrite (bind_run_Ret _ _ _ _ _ _ H1), H2. eexists. split; [reflexivity|].
  apply Forall_app. split; apply attempts_setsockopt.
Qed.

Lemma setsockopt_not_close s tb : Forall (is_setsockopt_on s) tb -> SysClose s ∉ tb.
Proof.
  intros Hall Hin. rewrite Forall_forall in Hall.
  by destruct (Hall _ Hin) as (opt & v & ?).
Qed.

Lemma last_cons_app {A} (x : A) l1 l2 y :
  last l2 = Some y -> last (x :: l1 ++ l2) = Some y.
Proof.
  intros H. change (x :: l1 ++ l2) with ((x :: l1) ++ l2).
  destruct l2 as [|z l2]; [done|]. rewrite last_app. by rewrite H.
Qed.

Lemma udpBind_log P os a u b w w' t r :
  let s := os_socket os (sa_family a) (SOCK_DGRAM P) in
  let len := if sa_family a =? AF_INET6 P then sizeof_sockaddr_in6 P
             else sizeof_sockaddr_in P in
  at_capacity P w = false -> ZT_WIRE_SOCKFD_VALID s = true ->
  udpBind P os a u b w = (w', t, r) ->
  (os_bind os s a len <> 0 \/ os_new_node os (handles w) = None ->
     r = Ret NULL /\ w' = w /\ last t = Some (SysClose s))
  /\ (forall h, os_bind os s a len = 0 -> os_new_node os (handles w) = Some h ->
        r = Ret h /\ w' = bound_socket w h s u a
        /\ last t = Some (SysSetNonblock s)
        /\ (SysClose s ∉ t) /\ (SysBind s a len ∈ t)).
Proof.
  intros s len Hcap Hvalid. subst len. unfold udpBind. unfold bind at 1, get.
  rewrite Hcap. erewrite bind_run_Ret by reflexivity.
  fold s. rewrite Hvalid. cbn [negb].
  destruct (buffer_sizes_log os s b w) as (tb & Hb & Htb).
  rewrite (bind_run_Ret _ _ _ _ _ _ Hb). clear Hb.
  pose proof (setsockopt_not_close s tb Htb) as Hnc.
  destruct (os_new_node os (handles w)) as [h0|] eqn:Hnew;
    destruct (s >? _nfds w) eqn:Hgt;
    destruct (sa_family a =? AF_INET6 P), (have_IPV6_MTU_DISCOVER P),
      (have_IP_DONTFRAG P), (have_IP_MTU_DISCOVER P); msimp;
    (destruct (os_bind os s a _ =? 0) eqn:Hbind;
     [apply Z.eqb_eq in Hbind|apply Z.eqb_neq in Hbind]);
    repeat (progress msimp || rewrite Hnew || rewrite Hgt
            || rewrite update_back_snoc || rewrite last_snoc_entry);
    intros [= <- <- <-];
    (split;
     [ intros [?|?]; try congruence;
       (split; [reflexivity|]); (split; [reflexivity|]);
       by apply last_cons_app
     | intros h ? Hh; try congruence;
       try (injection Hh as <-;
            split; [reflexivity|];
            split; [unfold bound_socket; by rewrite Hgt|];
            split; [by apply last_cons_app|];
            split;
            [ rewrite not_elem_of_cons, not_elem_of_app,
                ?not_elem_of_cons; repeat split; try done;
              apply not_elem_of_nil
            | rewrite elem_of_cons, elem_of_app, ?elem_of_cons;
              auto 12 ]) ]).
Qed.

Lemma udpBind_at_capacity P os a u b w :
  at_capacity P w = true -> udpBind P os a u b w = (w, [], Ret NULL).
Proof. intros H. unfold udpBind. msimp. by rewrite H. Qed.

Lemma udpBind_no_socket P os a u b w :
  at_capacity P w = false ->
  ZT_WIRE_SOCKFD_VALID (os_socket os (sa_family a) (SOCK_DGRAM P)) = false ->
  udpBind P os a u b w =
    (w, [SysSocket (sa_family a) (SOCK_DGRAM P)], Ret NULL).
Proof.
  intros Hc Hv. unfold udpBind. unfold bind at 1, get. rewrite Hc.
  erewrite bind_run_Ret by reflexivity. by rewrite Hv.
Qed.

Lemma deref_snoc_new h e l :
  h ∉ l.*1 -> deref h (l ++ [(h, e)]) = Some e.
Proof.
  induction l as [|[a s] l IH]; simpl; [intros _; by rewrite Z.eqb_refl|].
  rewrite not_elem_of_cons. intros [Hne Hl].
  destruct (a =? h) eqn:E; [apply Z.eqb_eq in E; congruence|]. auto.
Qed.

Lemma deref_snoc_ne h h' e l :
  h' <> h -> deref h' (l ++ [(h, e)]) = deref h' l.
Proof.
  intros Hne. induction l as [|[a s] l IH]; simpl.
  - destruct (h =? h') eqn:E; [apply Z.eqb_eq in E; congruence|done].
  - by rewrite IH.
Qed.

Lemma erase_snoc_new h e l :
  h ∉ l.*1 -> erase_addr h (l ++ [(h, e)]) = l.
Proof.
  induction l as [|[a s] l IH]; simpl; [intros _; by rewrite Z.eqb_refl|].
  rewrite not_elem_of_cons. intros [Hne Hl].
  destruct (a =? h) eqn:E; [apply Z.eqb_eq in E; congruence|].
  f_equal. auto.
Qed.

(** X4.  A [udpBind] that returns a socket: the handle was not live
    before and now designates a UDP entry holding the descriptor from
    [socket], the given [uptr] and the local address; the socket behind
    every other handle is unchanged; the descriptor is registered for
    reading and not above [_nfds]; it was set non-blocking as the last
    system call and was not closed. *)
Theorem udpBind_returns_live_socket P os a u b w w' t h :
  wf_table w -> allocator_sound os ->
  udpBind P os a u b w = (w', t, Ret h) -> h <> NULL ->
  let s := os_socket os (sa_family a) (SOCK_DGRAM P) in
  (h ∉ handles w)
  /\ deref h (_socks w') =
       Some {| type := ZT_WIRE_SOCKET_UDP; sock := s; uptr := u; saddr := a |}
  /\ (forall h', h' <> h -> deref h' (_socks w') = deref h' (_socks w))
  /\ wf_table w'
  /\ (s ∈ _readfds w') /\ s <= _nfds w' /\ _nfds w <= _nfds w'
  /\ last t = Some (SysSetNonblock s) /\ (SysClose s ∉ t).
Proof.
  intros Hwf Hos Hrun Hh s.
  destruct (at_capacity P w) eqn:Hcap.
  { rewrite udpBind_at_capacity in Hrun by done. congruence. }
  destruct (ZT_WIRE_SOCKFD_VALID s) eqn:Hvalid.
  2:{ rewrite udpBind_no_socket in Hrun by done. congruence. }
  destruct (udpBind_log P os a u b w w' t (Ret h) Hcap Hvalid Hrun)
    as [Hfail Hok].
  set (len := if sa_family a =? AF_INET6 P then sizeof_sockaddr_in6 P
              else sizeof_sockaddr_in P) in *.
  destruct (Z.eq_dec (os_bind os s a len) 0) as [Hbind|Hbind].
  2:{ destruct Hfail as [? _]; [by left|congruence]. }
  destruct (os_new_node os (handles w)) as [h0|] eqn:Hnew.
  2:{ destruct Hfail as [? _]; [by right|congruence]. }
  destruct (Hok h0 Hbind eq_refl) as (Hr & -> & Hlast & Hnc & _).
  injection Hr as <-. destruct (Hos _ _ Hnew) as [_ Hfresh].
  split; [done|]. cbn.
  split; [by apply deref_snoc_new|].
  split; [intros h' Hne; by apply deref_snoc_ne|].
  split; [eapply (wf_table_snoc os w); [done..| |done];
          unfold handles; cbn; by rewrite fmap_app|].
  split; [unfold FD_SET; apply elem_of_union_l; by apply elem_of_singleton|].
  fold s. destruct (s >? _nfds w) eqn:Hgt;
    [rewrite Z.gtb_ltb in Hgt; apply Z.ltb_lt in Hgt
    |rewrite Z.gtb_ltb in Hgt; apply Z.ltb_ge in Hgt];
    (split; [lia|]); (split; [lia|]); by split.
Qed.

(** X5.  A [udpBind] that returns the null handle leaves the reactor as
    it was.  At capacity it makes no system call; when [socket] fails
    that is its only call; and whenever it fails after [socket]
    succeeded, closing the descriptor is the last thing it does. *)
Theorem udpBind_failure_releases_socket P os a u b w w' t :
  allocator_sound os ->
  udpBind P os a u b w = (w', t, Ret NULL) ->
  let s := os_socket os (sa_family a) (SOCK_DGRAM P) in
  w' = w
  /\ (at_capacity P w = true -> t = [])
  /\ (at_capacity P w = false -> ZT_WIRE_SOCKFD_VALID s = false ->
        t = [SysSocket (sa_family a) (SOCK_DGRAM P)])
  /\ (at_capacity P w = false -> ZT_WIRE_SOCKFD_VALID s = true ->
        last t = Some (SysClose s)).
Proof.
  intros Hos Hrun s.
  destruct (at_capacity P w) eqn:Hcap.
  { rewrite udpBind_at_capacity in Hrun by done.
    injection Hrun as <- <-. by repeat split. }
  destruct (ZT_WIRE_SOCKFD_VALID s) eqn:Hvalid.
  2:{ rewrite udpBind_no_socket in Hrun by done.
      injection Hrun as <- <-. by repeat split. }
  destruct (udpBind_log P os a u b w w' t (Ret NULL) Hcap Hvalid Hrun)
    as [Hfail Hok].
  set (len := if sa_family a =? AF_INET6 P then sizeof_sockaddr_in6 P
              else sizeof_sockaddr_in P) in *.
  assert (os_bind os s a len <> 0 \/ os_new_node os (handles w) = None) as Hwhy.
  { destruct (Z.eq_dec (os_bind os s a len) 0) as [Hbind|Hbind]; [|by left].
    destruct (os_new_node os (handles w)) as [h0|] eqn:Hnew; [|by right].
    destruct (Hok h0 Hbind eq_refl) as (Hr & _). injection Hr as <-.
    by destruct (Hos _ _ Hnew) as [? _]. }
  destruct (Hfail Hwhy) as (_ & -> & Hlast).
  split; [done|]. split; [done|]. split; [done|]. done.
Qed.

Lemma FD_CLR_absent fd (s : fd_set) : fd ∉ s -> FD_CLR fd s = s.
Proof.
  intros H. unfold FD_CLR. apply set_eq. intros x.
  rewrite elem_of_difference, elem_of_singleton.
  split; [by intros [? _]|]. intros Hx. split; [done|]. by intros ->.
Qed.

Lemma FD_CLR_SET fd (s : fd_set) : fd ∉ s -> FD_CLR fd (FD_SET fd s) = s.
Proof.
  intros H. unfold FD_CLR, FD_SET. apply set_eq. intros x.
  rewrite elem_of_difference, elem_of_union, elem_of_singleton.
  split; [intros [[?|?] ?]; done|]. intros Hx. split; [by right|].
  by intros ->.
Qed.

(** X6.  Binding a socket and closing it again restores the table and
    the interest sets, when the descriptor the system handed out was in
    none of them; the close makes one system call and calls no handler,
    whether or not handlers were asked for. *)
Theorem udpBind_then_close_restores P os hs a u b callHandlers w w1 t1 h :
  wf_table w -> allocator_sound os ->
  udpBind P os a u b w = (w1, t1, Ret h) -> h <> NULL ->
  let s := os_socket os (sa_family a) (SOCK_DGRAM P) in
  s ∉ _readfds w -> s ∉ _writefds w -> s ∉ _exceptfds w ->
  exists w2,
    close hs h callHandlers w1 = (w2, [SysClose s], Ret tt)
    /\ _socks w2 = _socks w
    /\ _readfds w2 = _readfds w
    /\ _writefds w2 = _writefds w
    /\ _exceptfds w2 = _exceptfds w.
Proof.
  intros Hwf Hos Hrun Hh s Hr Hw He.
  apply udpBind_effect in Hrun as [[Hnull _]|(h' & Hnew & Hret & _ & ->)];
    [by injection Hnull as Hnull|].
  injection Hret as <-. destruct (Hos _ _ Hnew) as [_ Hfresh].
  fold s.
  rewrite (close_run hs h callHandlers _
             {| type := ZT_WIRE_SOCKET_UDP; sock := s; uptr := u; saddr := a |}
             Hh) by (by apply deref_snoc_new).
  eexists. split; [by destruct callHandlers|]. cbn.
  split; [by apply erase_snoc_new|].
  split; [by apply FD_CLR_SET|]. split; by apply FD_CLR_absent.
Qed.

(** ** The loop body of [poll] for the other kinds of socket *)

Lemma update_at_iter_twice k f g l h s :
  l !! k = Some (h, s) ->
  update_at_iter k f (update_at_iter k g l) = <[k := (h, f (g s))]> l.
Proof.
  intros Hk. rewrite (update_at_iter_insert k g _ _ _ Hk).
  erewrite update_at_iter_insert
    by (apply list_lookup_insert_eq; by eapply lookup_lt_Some).
  apply list_insert_insert_eq.
Qed.

Ltac run_body Hk :=
  repeat (progress msimp
          || rewrite lookup_update_at_iter
          || rewrite Hk
          || rewrite FD_ISSET_CLR
          || rewrite andb_false_r
          || rewrite (update_at_iter_twice _ _ _ _ _ _ Hk)
          || rewrite (update_at_iter_insert _ _ _ _ _ Hk)).

(** X7.  A UDP socket met by the loop of [poll] is never closed or
    erased and its registration never changes.  When its descriptor is
    readable one [recvfrom] is made; a positive length calls the
    datagram handler once with the source address and the bytes, and
    the [uptr] the handler leaves is stored even if it throws; a length
    of zero or below calls nothing. *)
Theorem udp_socket_dispatch P os hs rfds wfds efds k h s0 w :
  _socks w !! k = Some (h, s0) ->
  type s0 = ZT_WIRE_SOCKET_UDP ->
  let fd := sock s0 in
  let n := to_long (os_recvfrom os fd).1.1 in
  let data := (os_recvfrom os fd).1.2 in
  let from := (os_recvfrom os fd).2 in
  exists w' t,
    poll_body P os hs rfds wfds efds k h s0 w = (w', t, Ret false)
    /\ same_interest w w'
    /\ (FD_ISSET fd rfds = false -> t = [] /\ w' = w)
    /\ (FD_ISSET fd rfds = true -> n <= 0 -> t = [SysRecvfrom fd] /\ w' = w)
    /\ (FD_ISSET fd rfds = true -> 0 < n ->
        t = [SysRecvfrom fd; CallDatagram h (uptr s0) from data (to_ulong n)]
        /\ _socks w' =
             <[k := (h, set_uptr
                          (new_uptr (_dgHandler hs h (uptr s0) from data (to_ulong n)))
                          s0)]> (_socks w)).
Proof.
  intros Hk Hty. destruct s0 as [ty fd u sa]. cbn in Hty. subst ty. cbn.
  unfold poll_body. cbn [type sock].
  destruct (FD_ISSET fd rfds) eqn:Hr;
    destruct (os_recvfrom os fd) as [[n data] from] eqn:Hrecv; cbn [fst snd];
    [destruct (to_long n >? 0) eqn:Hn;
     [rewrite Z.gtb_ltb in Hn; apply Z.ltb_lt in Hn
     |rewrite Z.gtb_ltb in Hn; apply Z.ltb_ge in Hn]|];
    run_body Hk; try (destruct (throws _)); run_body Hk;
    (eexists _, _; split; [reflexivity|]; split; [done|];
     split; [intros; try congruence; done|];
     split; intros; try congruence; try lia; done).
Qed.

(** X8.  A connected outbound or an inbound socket met by the loop of
    [poll].  When its descriptor is readable one [recv] is made.  A
    length of zero or below closes the socket with the close handler and
    erases its node; the test of [s->sock] that follows reads the erased
    node through the iterator, so the body has no defined behaviour
    from there.  A positive length calls the data handler with the
    bytes.  When the socket was not closed the writable handler is
    called, after the data handler and with the [uptr] that one left,
    exactly when the descriptor is writable and is in [_writefds]. *)
Theorem connected_socket_dispatch P os hs rfds wfds efds k h s0 w :
  wf_table w -> _socks w !! k = Some (h, s0) ->
  type s0 = ZT_WIRE_SOCKET_TCP_OUT_CONNECTED \/ type s0 = ZT_WIRE_SOCKET_TCP_IN ->
  let fd := sock s0 in
  let n := to_long (os_recv os fd).1 in
  let data := (os_recv os fd).2 in
  let writable := FD_ISSET fd wfds && FD_ISSET fd (_writefds w) in
  let u1 := new_uptr (_tcpDataHandler hs h (uptr s0) data (to_ulong n)) in
  exists w' t r,
    poll_body P os hs rfds wfds efds k h s0 w = (w', t, r)
    /\ (FD_ISSET fd rfds = true -> n <= 0 ->
        t = [SysRecv fd; SysClose fd; CallTcpClose h (uptr s0)]
        /\ r = Undefined /\ closed_at k fd w w')
    /\ (FD_ISSET fd rfds = true -> 0 < n -> writable = false ->
        t = [SysRecv fd; CallTcpData h (uptr s0) data (to_ulong n)]
        /\ r = Ret false /\ same_interest w w'
        /\ _socks w' = <[k := (h, set_uptr u1 s0)]> (_socks w))
    /\ (FD_ISSET fd rfds = true -> 0 < n -> writable = true ->
        t = [SysRecv fd; CallTcpData h (uptr s0) data (to_ulong n);
             CallTcpWritable h u1]
        /\ r = Ret false /\ same_interest w w'
        /\ _socks w' =
             <[k := (h, set_uptr (new_uptr (_tcpWritableHandler hs h u1)) s0)]>
               (_socks w))
    /\ (FD_ISSET fd rfds = false -> writable = true ->
        t = [CallTcpWritable h (uptr s0)]
        /\ r = Ret false /\ same_interest w w'
        /\ _socks w' =
             <[k := (h, set_uptr (new_uptr (_tcpWritableHandler hs h (uptr s0))) s0)]>
               (_socks w))
    /\ (FD_ISSET fd rfds = false -> writable = false ->
        t = [] /\ r = Ret false /\ w' = w).
Proof.
  intros Hwf Hk Hty.
  pose proof (iter_not_null _ _ _ _ Hwf Hk) as Hn.
  pose proof (iter_deref _ _ _ _ Hwf Hk) as Hd.
  pose proof (iter_erase _ _ _ _ Hwf Hk) as He.
  destruct s0 as [ty fd u sa]. cbn in Hty. cbn.
  unfold poll_body. cbn [type sock].
  destruct (os_recv os fd) as [n data] eqn:Hrecv; cbn [fst snd].
  destruct Hty as [-> | ->];
    (destruct (FD_ISSET fd rfds) eqn:Hr;
     [destruct (to_long n <=? 0) eqn:Hle;
      [apply Z.leb_le in Hle|apply Z.leb_gt in Hle]|];
     destruct (FD_ISSET fd wfds) eqn:Hw;
     destruct (FD_ISSET fd (_writefds w)) eqn:Hww;
     repeat (progress msimp
             || rewrite Hrecv || rewrite Hww
             || rewrite (close_run _ _ _ _ _ Hn Hd)
             || rewrite lookup_update_at_iter
             || rewrite Hk
             || rewrite FD_ISSET_CLR
             || rewrite andb_false_r
             || match goal with
                | |- context [if throws ?x then _ else _] => destruct (throws x)
                | |- context [if fd >=? ?x then _ else _] => destruct (fd >=? x)
                end);
     rewrite ?(update_at_iter_twice _ _ _ _ _ _ Hk),
       ?(update_at_iter_insert _ _ _ _ _ Hk);
     eexists _, _, _; (split; [reflexivity|]);
     unfold closed_at; cbn; rewrite ?He;
     (split; [intros; try congruence; try lia; done|]);
     (split; [intros; try congruence; try lia; done|]);
     (split; [intros; try congruence; try lia; done|]);
     (split; intros; try congruence; try lia; done)).
Qed.

(** X9.  A listening socket met by the loop of [poll] adds nothing to
    the table when its descriptor is not readable, when [accept] fails,
    and when the table is at capacity; at capacity the accepted
    descriptor is closed at once.  In none of these cases is a handler
    called or the reactor changed. *)
Theorem listening_socket_refusals P os hs rfds wfds efds k h s0 w :
  type s0 = ZT_WIRE_SOCKET_TCP_LISTEN ->
  let fd := sock s0 in
  let newSock := (os_accept os fd).1 in
  (FD_ISSET fd rfds = false ->
     poll_body P os hs rfds wfds efds k h s0 w = (w, [], Ret false))
  /\ (FD_ISSET fd rfds = true -> ZT_WIRE_SOCKFD_VALID newSock = false ->
      poll_body P os hs rfds wfds efds k h s0 w = (w, [SysAccept fd], Ret false))
  /\ (FD_ISSET fd rfds = true -> ZT_WIRE_SOCKFD_VALID newSock = true ->
      at_capacity P w = true ->
      poll_body P os hs rfds wfds efds k h s0 w =
        (w, [SysAccept fd; SysClose newSock], Ret false)).
Proof.
  intros Hty. destruct s0 as [ty fd u sa]. cbn in Hty. subst ty. cbn.
  unfold poll_body. cbn [type sock].
  destruct (os_accept os fd) as [newSock ss] eqn:Hacc. cbn [fst].
  split; [|split].
  - intros ->. reflexivity.
  - intros -> Hv. msimp. by rewrite Hv.
  - intros -> Hv Hc. msimp. rewrite Hv. msimp. by rewrite Hc.
Qed.

(** X10.  When the node for an accepted connection cannot be allocated,
    the exception leaves the loop of [poll] at once: the sockets that
    follow are not visited, the reactor is unchanged, and the accepted
    descriptor, already set up, is neither closed nor recorded. *)
Theorem accept_allocation_failure P os hs rfds wfds efds fuel k h s0 w :
  _socks w !! k = Some (h, s0) ->
  type s0 = ZT_WIRE_SOCKET_TCP_LISTEN ->
  FD_ISSET (sock s0) rfds = true ->
  ZT_WIRE_SOCKFD_VALID (os_accept os (sock s0)).1 = true ->
  at_capacity P w = false ->
  os_new_node os (handles w) = None ->
  poll_loop P (S fuel) os hs rfds wfds efds k w =
    (w,
     [SysAccept (sock s0);
      SysSetsockopt (os_accept os (sock s0)).1 TCP_NODELAY
        (if _noDelay w then 1 else 0);
      SysSetNonblock (os_accept os (sock s0)).1],
     Throw BadAlloc).
Proof.
  intros Hk Hty Hr Hv Hc Hnew. destruct s0 as [ty fd u sa].
  cbn in *. subst ty. unfold bind at 1, get. rewrite Hk. cbn beta iota.
  unfold poll_body. cbn [type sock]. rewrite Hr.
  destruct (os_accept os fd) as [newSock ss] eqn:Hacc. cbn [fst] in *.
  msimp. rewrite Hv. msimp. rewrite Hc. msimp.
  rewrite Hnew. reflexivity.
Qed.

(** X20.  A listening socket met by the loop of [poll] with its
    descriptor readable, when [accept] succeeds below capacity and the
    node is allocated.  The accepted descriptor is given [TCP_NODELAY]
    as [_noDelay] says and is made non-blocking, it is put in
    [_readfds] and raises [_nfds] when it is higher.  One entry is
    appended, at the address the allocator gave: it is typed
    [ZT_WIRE_SOCKET_UDP], not [ZT_WIRE_SOCKET_TCP_IN], and holds the
    peer address.  The accept handler is called once, with the handle
    and [uptr] of the listening socket, the handle of the new entry, a
    null [uptr] for it and the peer address; what it leaves in the two
    [uptr]s is stored even if it throws.  The listening socket stays
    and the other two sets are untouched. *)
Theorem accept_appends_udp_entry P os hs rfds wfds efds k h s0 w newSock ss a :
  _socks w !! k = Some (h, s0) ->
  type s0 = ZT_WIRE_SOCKET_TCP_LISTEN ->
  FD_ISSET (sock s0) rfds = true ->
  os_accept os (sock s0) = (newSock, ss) ->
  ZT_WIRE_SOCKFD_VALID newSock = true ->
  at_capacity P w = false ->
  os_new_node os (handles w) = Some a ->
  let o := _tcpAcceptHandler hs h a (uptr s0) 0 ss in
  exists w' e,
    poll_body P os hs rfds wfds efds k h s0 w =
      (w',
       [SysAccept (sock s0);
        SysSetsockopt newSock TCP_NODELAY (if _noDelay w then 1 else 0);
        SysSetNonblock newSock;
        CallTcpAccept h a (uptr s0) 0 ss],
       Ret false)
    /\ _socks w' = <[k := (h, set_uptr (new_uptrL o) s0)]> (_socks w) ++ [(a, e)]
    /\ type e = ZT_WIRE_SOCKET_UDP /\ type e <> ZT_WIRE_SOCKET_TCP_IN
    /\ uptr e = new_uptrN o /\ saddr e = ss
    /\ _readfds w' = FD_SET newSock (_readfds w)
    /\ _writefds w' = _writefds w /\ _exceptfds w' = _exceptfds w
    /\ _nfds w' = (if newSock >? _nfds w then newSock else _nfds w).
Proof.
  intros Hk Hty Hrd Hacc Hvalid Hcap Hnew o.
  rewrite (poll_body_accept P os hs rfds wfds efds k h s0 w newSock ss a
             Hk Hty Hrd Hacc Hvalid Hcap Hnew).
  eexists _, _. split; [reflexivity|]. cbn.
  split; [reflexivity|]. split; [reflexivity|]. split; [discriminate|].
  repeat split.
Qed.

(** ** What an operation writes to the log *)

Lemma emits_ret {A} Q (a : A) : emits Q (ret a).
Proof. intros w. constructor. Qed.

Lemma emits_get Q : emits Q get.
Proof. intros w. constructor. Qed.

Lemma emits_modify Q f : emits Q (modify f).
Proof. intros w. constructor. Qed.

Lemma emits_throw {A} Q e : emits Q (@throw A e).
Proof. intros w. constructor. Qed.

Lemma emits_undefined {A} Q : emits Q (@undefined A).
Proof. intros w. constructor. Qed.

Lemma emits_emit (Q : Event -> Prop) e : Q e -> emits Q (emit e).
Proof. intros H w. by repeat constructor. Qed.

Lemma emits_bind {A B} Q (m : M A) (f : A -> M B) :
  emits Q m -> (forall a, emits Q (f a)) -> emits Q (bind m f).
Proof.
  intros Hm Hf w. unfold bind. specialize (Hm w).
  destruct (m w) as [[w1 t1] [a|e| |]]; cbn in *; try done.
  specialize (Hf a w1). destruct (f a w1) as [[w2 t2] r]. cbn in *.
  by apply Forall_app.
Qed.

Lemma emits_try_catch_all Q m : emits Q m -> emits Q (try_catch_all m).
Proof.
  intros Hm w. unfold try_catch_all. specialize (Hm w).
  by destruct (m w) as [[w1 t1] [a|e| |]].
Qed.

Lemma emits_try_completed Q m : emits Q m -> emits Q (try_completed m).
Proof.
  intros Hm w. unfold try_completed. specialize (Hm w).
  by destruct (m w) as [[w1 t1] [a|e| |]].
Qed.

Lemma emits_when Q (b : bool) m : emits Q m -> emits Q (when b m).
Proof. intros Hm. destruct b; [done|apply emits_ret]. Qed.

Lemma emits_load Q r : emits Q (load r).
Proof.
  unfold load. apply emits_bind; [apply emits_get|]. intros w.
  destruct (read_slot r (_socks w)); [apply emits_ret|apply emits_undefined].
Qed.

Lemma emits_store Q r f : emits Q (store r f).
Proof. apply emits_modify. Qed.

Lemma emits_set_buffer_size Q os s opt :
  (forall v, Q (SysSetsockopt s opt v)) ->
  forall fuel bs, emits Q (set_buffer_size fuel os s opt bs).
Proof.
  intros HQ. induction fuel as [|fuel IH]; intros bs; simpl.
  - intros w. constructor.
  - destruct (bs >=? 65536); [|apply emits_ret].
    apply emits_bind; [by apply emits_emit|]. intros _.
    destruct (_ =? 0); [apply emits_ret|apply IH].
Qed.

(** Structural descent into a computation. *)
Ltac emits_step :=
  first
    [ apply emits_ret | apply emits_get | apply emits_modify
    | apply emits_store | apply emits_load | apply emits_throw
    | apply emits_undefined
    | apply emits_emit; exact I
    | apply emits_try_catch_all | apply emits_try_completed
    | apply emits_when
    | apply emits_set_buffer_size; intros; exact I
    | apply emits_bind; [|intros ?]
    | match goal with
      | |- emits _ (if ?c then _ else _) => destruct c
      | |- emits _ (match ?c with Some _ => _ | None => _ end) => destruct c
      | |- emits _ (match ?c with (_, _) => _ end) => destruct c
      | |- emits _ (match type ?s with _ => _ end) => destruct (type s)
      | |- emits _ (match ?c with [] => _ | _ :: _ => _ end) => destruct c
      end ].

Ltac emits_auto := repeat emits_step.

(** X11.  The functions that create sockets, send, and change the
    writable notification never call a handler, whatever their outcome:
    handlers are called from [poll], [close] and the destructor only. *)
Theorem only_poll_and_close_call_handlers P os :
  (forall a u b, emits (fun e => ~ handler_call e) (udpBind P os a u b))
  /\ (forall a u, emits (fun e => ~ handler_call e) (tcpListen P a u))
  /\ (forall a u, emits (fun e => ~ handler_call e) (tcpConnect P a u))
  /\ (forall h a al d n, emits (fun e => ~ handler_call e) (udpSend os h a al d n))
  /\ (forall h d n, emits (fun e => ~ handler_call e) (tcpSend os h d n))
  /\ (forall h b, emits (fun e => ~ handler_call e) (tcpSetNotifyWritable h b))
  /\ emits (fun e => ~ handler_call e) whack.
Proof.
  repeat apply conj; intros;
    unfold udpBind, tcpListen, tcpConnect, udpSend, tcpSend,
      tcpSetNotifyWritable, whack, setsockopt_, push_back, back_addr.
  all: repeat first
    [ apply emits_ret | apply emits_get | apply emits_modify
    | apply emits_store | apply emits_load | apply emits_throw
    | apply emits_undefined
    | apply emits_emit; by intros []
    | apply emits_try_completed | apply emits_when
    | apply emits_set_buffer_size; intros; by intros []
    | apply emits_bind; [|intros ?]
    | match goal with
      | |- emits _ (if ?c then _ else _) => destruct c
      | |- emits _ (match ?c with Some _ => _ | None => _ end) => destruct c
      end ].
Qed.

(** ** The wait of [poll] *)

Ltac emits_no_wait :=
  repeat first
    [ apply emits_ret | apply emits_get | apply emits_modify
    | apply emits_store | apply emits_load | apply emits_throw
    | apply emits_undefined
    | apply emits_emit; by intros []
    | apply emits_try_catch_all | apply emits_try_completed
    | apply emits_when
    | apply emits_bind; [|intros ?]
    | match goal with
      | |- emits _ (if ?c then _ else _) => destruct c
      | |- emits _ (match ?c with Some _ => _ | None => _ end) => destruct c
      | |- emits _ (match ?c with (_, _) => _ end) => destruct c
      | |- emits _ (match type ?s with _ => _ end) => destruct (type s)
      end ].

Lemma close_no_wait hs h b : emits (fun e => ~ wait_call e) (close hs h b).
Proof.
  unfold close, call_tcpConnectHandler, call_tcpCloseHandler, handler_exit.
  emits_no_wait.
Qed.

Lemma poll_body_no_wait P os hs rfds wfds efds k h s0 :
  emits (fun e => ~ wait_call e) (poll_body P os hs rfds wfds efds k h s0).
Proof.
  unfold poll_body, call_dgHandler, call_tcpConnectHandler,
    call_tcpDataHandler, call_tcpWritableHandler, call_tcpAcceptHandler,
    handler_exit, setsockopt_, push_back, back_addr.
  repeat first [ apply close_no_wait | progress emits_no_wait ].
Qed.

Lemma poll_loop_no_wait P os hs rfds wfds efds fuel : forall k,
  emits (fun e => ~ wait_call e) (poll_loop P fuel os hs rfds wfds efds k).
Proof.
  induction fuel as [|fuel IH]; intros k; simpl.
  - intros w. constructor.
  - apply emits_bind; [apply emits_get|]. intros w.
    destruct (_socks w !! k) as [[h s0]|]; [|apply emits_ret].
    apply emits_bind; [apply poll_body_no_wait|].
    intros []; [apply emits_undefined|apply IH].
Qed.

(** The timeout handed to [select]: none for 0, else seconds and
    microseconds. *)
Lemma poll_shape P os hs timeout w :
  let tvp := if timeout >? 0
             then Some (to_long (timeout / 1000),
                        to_long ((timeout mod 1000) * 1000))
             else None in
  let n := to_int (_nfds w) + 1 in
  let ready := os_select os n (_readfds w) (_writefds w) (_exceptfds w) tvp in
  let drain := if FD_ISSET (_whackReceiveSocket w) ready.1.1
               then [SysRead (_whackReceiveSocket w)] else [] in
  let pass := poll_loop P (poll_fuel w) os hs ready.1.1 ready.1.2 ready.2 0 w in
  poll P os hs timeout w =
    (pass.1.1,
     SysSelect n (_readfds w) (_writefds w) (_exceptfds w) tvp ::
     drain ++ pass.1.2,
     pass.2).
Proof.
  cbn zeta. unfold poll. unfold bind at 1, get.
  erewrite bind_run_Ret by reflexivity.
  destruct (os_select _ _ _ _ _ _) as [[rfds wfds] efds]. cbn [fst snd].
  destruct (poll_loop _ _ _ _ _ _ _ _ _) as [[w' t] r] eqn:Hloop. cbn [fst snd].
  destruct (FD_ISSET (_whackReceiveSocket w) rfds); cbn [when];
    [erewrite bind_run_Ret by reflexivity|erewrite bind_run_Ret by reflexivity];
    by rewrite Hloop.
Qed.

(** X12.  Every [poll] makes exactly one [select], first of all, over
    the three interest sets as they are at the call; it reads the pipe
    once right after when [select] reports its receiving end readable,
    and makes no further [select] or pipe read in that pass. *)
Theorem poll_waits_once P os hs timeout w :
  exists tvp rest,
    let n := to_int (_nfds w) + 1 in
    let ready := os_select os n (_readfds w) (_writefds w) (_exceptfds w) tvp in
    (poll P os hs timeout w).1.2 =
      SysSelect n (_readfds w) (_writefds w) (_exceptfds w) tvp ::
      (if FD_ISSET (_whackReceiveSocket w) ready.1.1
       then [SysRead (_whackReceiveSocket w)] else []) ++ rest
    /\ Forall (fun e => ~ wait_call e) rest.
Proof.
  eexists _, _. cbn zeta. rewrite poll_shape. cbn [fst snd].
  split; [reflexivity|]. apply poll_loop_no_wait.
Qed.

(** X13.  The timeout of [poll], in milliseconds within the range of
    [unsigned long]: 0 passes no timeout to [select], which then waits
    without limit; any other value is passed as whole seconds and less
    than a second of microseconds that add up to it exactly. *)
Theorem poll_timeout_conversion P os hs timeout w :
  0 <= timeout < 2 ^ 64 ->
  exists n r wr ex tvp,
    head (poll P os hs timeout w).1.2 = Some (SysSelect n r wr ex tvp)
    /\ (timeout = 0 -> tvp = None)
    /\ (0 < timeout ->
        exists sec usec,
          tvp = Some (sec, usec)
          /\ 0 <= usec < 1000000
          /\ sec * 1000 + usec / 1000 = timeout
          /\ usec mod 1000 = 0).
Proof.
  intros Hrange. rewrite poll_shape. cbn [fst snd head].
  eexists _, _, _, _, _. split; [reflexivity|].
  split.
  - intros ->. reflexivity.
  - intros Hpos. destruct (timeout >? 0) eqn:E;
      [|rewrite Z.gtb_ltb in E; apply Z.ltb_ge in E; lia].
    eexists _, _. split; [reflexivity|].
    pose proof (Z.mod_pos_bound timeout 1000 ltac:(lia)) as Hmod.
    assert (0 <= timeout / 1000) by (apply Z.div_pos; lia).
    pose proof (Z.div_mod timeout 1000 ltac:(lia)) as Hdm.
    rewrite !to_long_id by (unfold LONG_MAX; lia).
    split; [lia|]. split.
    + rewrite Z.div_mul by lia. lia.
    + apply Z.mod_mul. lia.
Qed.

(** ** A pass in which nothing is ready *)

Lemma poll_body_idle P os hs rfds wfds efds k h s0 w :
  FD_ISSET (sock s0) rfds = false -> FD_ISSET (sock s0) wfds = false ->
  FD_ISSET (sock s0) efds = false ->
  poll_body P os hs rfds wfds efds k h s0 w = (w, [], Ret false).
Proof.
  intros Hr Hw He. unfold poll_body.
  destruct (type s0); rewrite ?Hr, ?Hw, ?He; reflexivity.
Qed.

Lemma poll_loop_idle P os hs rfds wfds efds w :
  (forall fd, fd ∈ table_fds (_socks w) ->
     (fd ∉ rfds) /\ (fd ∉ wfds) /\ (fd ∉ efds)) ->
  forall fuel k, (length (_socks w) - k < fuel)%nat ->
  poll_loop P fuel os hs rfds wfds efds k w = (w, [], Ret tt).
Proof.
  intros Hidle. induction fuel as [|fuel IH]; intros k Hfuel; [lia|].
  simpl. unfold bind at 1, get.
  destruct (_socks w !! k) as [[h s0]|] eqn:Hk; [|reflexivity].
  assert (sock s0 ∈ table_fds (_socks w)) as Hin.
  { unfold table_fds. apply list_elem_of_fmap. exists (h, s0).
    split; [done|]. by eapply list_elem_of_lookup_2. }
  destruct (Hidle _ Hin) as (Hr & Hw & He).
  unfold bind. rewrite poll_body_idle
    by (unfold FD_ISSET; by apply bool_decide_eq_false).
  apply lookup_lt_Some in Hk. rewrite IH by lia. reflexivity.
Qed.

(** X14.  When [select] reports none of the table's descriptors in any
    of the three sets, as after a timeout or a wake through the pipe,
    [poll] visits the sockets without a system call or a handler call
    and leaves the reactor exactly as it was. *)
Theorem poll_nothing_ready P os hs timeout w :
  let tvp := if timeout >? 0
             then Some (to_long (timeout / 1000),
                        to_long ((timeout mod 1000) * 1000))
             else None in
  let n := to_int (_nfds w) + 1 in
  let ready := os_select os n (_readfds w) (_writefds w) (_exceptfds w) tvp in
  (forall fd, fd ∈ table_fds (_socks w) ->
     (fd ∉ ready.1.1) /\ (fd ∉ ready.1.2) /\ (fd ∉ ready.2)) ->
  poll P os hs timeout w =
    (w,
     SysSelect n (_readfds w) (_writefds w) (_exceptfds w) tvp ::
     (if FD_ISSET (_whackReceiveSocket w) ready.1.1
      then [SysRead (_whackReceiveSocket w)] else []),
     Ret tt).
Proof.
  cbn zeta. intros Hidle. rewrite poll_shape.
  rewrite (poll_loop_idle P os hs _ _ _ w Hidle)
    by (unfold poll_fuel; lia).
  cbn [fst snd]. by rewrite app_nil_r.
Qed.

(** ** Invariants of the loop of [poll] *)

Lemma poll_loop_invariant P os hs rfds wfds efds
  (I : Wire -> Prop) (Q : Event -> Prop) :
  (forall k h s0 w, I w -> _socks w !! k = Some (h, s0) ->
     I (poll_body P os hs rfds wfds efds k h s0 w).1.1
     /\ Forall Q (poll_body P os hs rfds wfds efds k h s0 w).1.2) ->
  forall fuel k w, I w ->
    I (poll_loop P fuel os hs rfds wfds efds k w).1.1
    /\ Forall Q (poll_loop P fuel os hs rfds wfds efds k w).1.2.
Proof.
  intros Hbody. induction fuel as [|fuel IH]; intros k w HI.
  - split; [done|constructor].
  - simpl. unfold bind, get. cbn beta iota.
    destruct (_socks w !! k) as [[h s0]|] eqn:Hk; [|split; [done|constructor]].
    destruct (Hbody k h s0 w HI Hk) as [HI1 HQ1].
    destruct (poll_body P os hs rfds wfds efds k h s0 w) as [[w1 t1] [e| | |]];
      cbn in *; try done.
    destruct e; cbn; [by rewrite app_nil_r|].
    destruct (IH (S k) w1 HI1) as [HI2 HQ2].
    destruct (poll_loop _ _ _ _ _ _ _ _ w1) as [[w2 t2] r2]. cbn in *.
    split; [done|]. by apply Forall_app.
Qed.

Lemma poll_body_wf P os hs rfds wfds efds k h s0 w :
  allocator_sound os -> wf_table w -> _socks w !! k = Some (h, s0) ->
  wf_table (poll_body P os hs rfds wfds efds k h s0 w).1.1.
Proof.
  intros Hos Hwf Hk.
  destruct (poll_body P os hs rfds wfds efds k h s0 w) as [[w1 t1] r1] eqn:Hb.
  cbn.
  destruct (poll_body_effect P os hs rfds wfds efds k h s0 w Hwf Hk _ _ _ Hb)
    as [(_ & Hs & _)|[[_ [Hh _]]|[[_ (_ & _ & a & e & Ha & Hh & _)]|[_ Hs]]]].
  - eapply wf_table_erase; [|done]. rewrite Hs. symmetry.
    by eapply iter_erase.
  - by eapply wf_table_handles.
  - by eapply wf_table_snoc.
  - eapply wf_table_handles; [|done]. unfold handles. by rewrite Hs.
Qed.

(** ** [_nfds] *)

Lemma fold_max_ge (l : list (WireSocket * WireSocketImpl)) n :
  n <= fold_left (fun n p => if sock p.2 >? n then sock p.2 else n) l n
  /\ (forall p, p ∈ l ->
        sock p.2 <= fold_left (fun n p => if sock p.2 >? n then sock p.2 else n) l n).
Proof.
  revert n. induction l as [|q l IH]; intros n; simpl.
  - split; [lia|]. by intros p ?%elem_of_nil.
  - destruct (IH (if sock q.2 >? n then sock q.2 else n)) as [Hn Hl].
    assert (n <= (if sock q.2 >? n then sock q.2 else n)
            /\ sock q.2 <= (if sock q.2 >? n then sock q.2 else n)) as [? ?].
    { destruct (sock q.2 >? n) eqn:E; rewrite Z.gtb_ltb in E;
        [apply Z.ltb_lt in E|apply Z.ltb_ge in E]; lia. }
    split; [lia|]. intros p [->|Hp]%elem_of_cons; [lia|auto].
Qed.

Lemma highest_ge w h s : deref h (_socks w) = Some s -> sock s <= highest_sockfd w.
Proof.
  intros Hd%deref_elem. unfold highest_sockfd.
  by apply (proj2 (fold_max_ge (_socks w) _) (h, s)).
Qed.

Ltac bool_to_Z :=
  repeat match goal with
    | H : (_ >=? _) = true |- _ => apply Z.geb_le in H
    | H : (_ >=? _) = false |- _ => rewrite Z.geb_leb in H; apply Z.leb_gt in H
    | H : (_ >? _) = true |- _ => rewrite Z.gtb_ltb in H; apply Z.ltb_lt in H
    | H : (_ >? _) = false |- _ => rewrite Z.gtb_ltb in H; apply Z.ltb_ge in H
    end.

Lemma nfds_kept_refl w : nfds_kept w w.
Proof. unfold nfds_kept. lia. Qed.

Lemma nfds_kept_trans w1 w2 w3 :
  nfds_kept w1 w2 -> nfds_kept w2 w3 -> nfds_kept w1 w3.
Proof. unfold nfds_kept. intros (? & ? & ?) (? & ? & ?). split; [lia|]. split; congruence. Qed.

Lemma close_nfds_kept hs h b w : nfds_kept w (close hs h b w).1.1.
Proof.
  destruct (h =? NULL) eqn:E.
  { unfold close. rewrite E. apply nfds_kept_refl. }
  apply Z.eqb_neq in E.
  destruct (deref h (_socks w)) as [sws|] eqn:Hd.
  - rewrite (close_run hs h b w sws E Hd). unfold nfds_kept. cbn.
    pose proof (highest_ge w h sws Hd).
    destruct (sock sws >=? _nfds w) eqn:Hge; bool_to_Z; repeat split; lia.
  - unfold close. apply Z.eqb_neq in E. rewrite E. msimp. rewrite Hd.
    apply nfds_kept_refl.
Qed.

Lemma poll_body_nfds_kept P os hs rfds wfds efds k h s0 w :
  wf_table w -> _socks w !! k = Some (h, s0) ->
  nfds_kept w (poll_body P os hs rfds wfds efds k h s0 w).1.1.
Proof.
  intros Hwf Hk.
  pose proof (iter_not_null _ _ _ _ Hwf Hk) as Hn.
  pose proof (iter_deref _ _ _ _ Hwf Hk) as Hd.
  pose proof (highest_ge w h s0 Hd) as Hhigh.
  destruct (poll_body P os hs rfds wfds efds k h s0 w) as [[w' t] r] eqn:Hb.
  revert Hb. unfold poll_body. destruct s0 as [ty fd u sa]. cbn in Hhigh.
  destruct ty;
    repeat (progress msimp
            || rewrite (close_run _ _ _ _ _ Hn Hd)
            || rewrite (lookup_app_l_Some _ _ _ _ Hk)
            || rewrite (update_at_iter_snoc _ _ _ _ _ Hk)
            || rewrite lookup_update_at_iter
            || rewrite update_back_snoc
            || rewrite last_snoc_entry
            || rewrite FD_ISSET_CLR
            || rewrite andb_false_r
            || rewrite Hk
            || split_oracle
            || split_if);
    intros [= <- <- <-]; unfold nfds_kept; cbn; bool_to_Z;
    repeat split; lia.
Qed.

Lemma poll_nfds_kept P os hs timeout w :
  allocator_sound os -> wf_table w ->
  nfds_kept w (poll P os hs timeout w).1.1.
Proof.
  intros Hos Hwf. rewrite poll_shape. cbn [fst].
  apply (poll_loop_invariant P os hs _ _ _
           (fun w' => wf_table w' /\ nfds_kept w w') (fun _ => True)).
  - intros k h s0 w1 [Hwf1 Hk1] Hk. split; [|by apply Forall_true].
    split; [by apply poll_body_wf|].
    eapply nfds_kept_trans; [done|]. by apply poll_body_nfds_kept.
  - split; [done|apply nfds_kept_refl].
Qed.

Lemma exec_nfds_kept P os hs c w :
  allocator_sound os -> wf_table w -> nfds_kept w (exec P os hs c w).
Proof.
  intros Hos Hwf. destruct c; cbn [exec].
  - destruct (udpBind P os localAddress uptr_ bufferSize w) as [[w' t] r] eqn:E.
    cbn. apply udpBind_effect in E as [[_ ->]|(h & _ & _ & _ & ->)];
      [apply nfds_kept_refl|].
    unfold nfds_kept. cbn.
    destruct (_ >? _nfds w) eqn:Hgt; bool_to_Z; repeat split; lia.
  - unfold udpSend. msimp.
    destruct (deref sock_ (_socks w)); apply nfds_kept_refl.
  - unfold tcpListen. msimp. destruct (at_capacity P w); apply nfds_kept_refl.
  - unfold tcpConnect. msimp. destruct (at_capacity P w); apply nfds_kept_refl.
  - unfold tcpSend. msimp.
    destruct (deref sock_ (_socks w)); apply nfds_kept_refl.
  - unfold tcpSetNotifyWritable. msimp.
    destruct (deref sock_ (_socks w)), notifyWritable; unfold nfds_kept; cbn;
      repeat split; lia.
  - apply nfds_kept_refl.
  - by apply poll_nfds_kept.
  - apply close_nfds_kept.
Qed.

(** X15.  No member function ever lowers [_nfds] or touches the pipe
    descriptors: [close] rescans for the highest descriptor before the
    closed socket is erased, so the bound handed to [select] never
    shrinks. *)
Theorem nfds_never_lowered P os hs c w :
  allocator_sound os -> wf_table w ->
  _nfds w <= _nfds (exec P os hs c w)
  /\ _whackReceiveSocket (exec P os hs c w) = _whackReceiveSocket w
  /\ _whackSendSocket (exec P os hs c w) = _whackSendSocket w.
Proof. intros Hos Hwf. by apply exec_nfds_kept. Qed.

(** X16.  In every reachable state both ends of the pipe are within the
    range [poll] hands to [select]. *)
Theorem pipe_within_select_range P w :
  reachable P w ->
  _whackReceiveSocket w <= _nfds w /\ _whackSendSocket w <= _nfds w.
Proof.
  induction 1 as [os nd t w Hnew|os hs c w Hos Hr IH].
  - unfold Wire_new in Hnew. destruct (os_pipe os) as [[p0 p1]|]; [|done].
    injection Hnew as _ <-. cbn.
    destruct (p0 >? p1) eqn:E; bool_to_Z; lia.
  - destruct (reachable_invariant P w Hr) as [Hwf _].
    destruct (exec_nfds_kept P os hs c w Hos Hwf) as (? & -> & ->). lia.
Qed.

(** ** The kinds of socket a reactor can hold *)

Lemma poll_body_udp P os hs rfds wfds efds k h s0 w :
  all_udp w -> _socks w !! k = Some (h, s0) ->
  all_udp (poll_body P os hs rfds wfds efds k h s0 w).1.1
  /\ Forall (fun e => ~ tcp_handler_call e)
       (poll_body P os hs rfds wfds efds k h s0 w).1.2.
Proof.
  intros Hall Hk.
  assert (type s0 = ZT_WIRE_SOCKET_UDP) as Hty.
  { unfold all_udp in Hall. rewrite Forall_forall in Hall.
    apply (Hall (h, s0)). by eapply list_elem_of_lookup_2. }
  destruct s0 as [ty fd u sa]. cbn in Hty. subst ty.
  unfold poll_body. cbn [type sock].
  destruct (FD_ISSET fd rfds);
    [destruct (os_recvfrom os fd) as [[n data] from];
     destruct (to_long n >? 0)|];
    run_body Hk; try (destruct (throws _)); run_body Hk;
    (split; [|repeat constructor; by intros []]); try done.
  all: unfold all_udp; cbn; apply Forall_insert; done.
Qed.

Lemma Forall_erase (Q : WireSocket * WireSocketImpl -> Prop) h l :
  Forall Q l -> Forall Q (erase_addr h l).
Proof.
  induction 1 as [|[a s] l Hq Hl IH]; simpl; [constructor|].
  destruct (a =? h); [done|by constructor].
Qed.

Lemma exec_all_udp P os hs c w : all_udp w -> all_udp (exec P os hs c w).
Proof.
  intros Hall. destruct c; cbn [exec].
  - destruct (udpBind P os localAddress uptr_ bufferSize w) as [[w' t] r] eqn:E.
    cbn. apply udpBind_effect in E as [[_ ->]|(h & _ & _ & _ & ->)]; [done|].
    unfold all_udp. cbn. apply Forall_app. split; [done|]. by repeat constructor.
  - unfold udpSend. msimp. by destruct (deref sock_ (_socks w)).
  - unfold tcpListen. msimp. by destruct (at_capacity P w).
  - unfold tcpConnect. msimp. by destruct (at_capacity P w).
  - unfold tcpSend. msimp. by destruct (deref sock_ (_socks w)).
  - unfold tcpSetNotifyWritable. msimp.
    by destruct (deref sock_ (_socks w)), notifyWritable.
  - done.
  - rewrite poll_shape. cbn [fst].
    by apply (poll_loop_invariant P os hs _ _ _ all_udp
                (fun e => ~ tcp_handler_call e) (poll_body_udp P os hs _ _ _)).
  - destruct (sock_ =? NULL) eqn:E.
    { unfold close. by rewrite E. }
    apply Z.eqb_neq in E.
    destruct (deref sock_ (_socks w)) as [sws|] eqn:Hd.
    + rewrite (close_run hs _ callHandlers _ _ E Hd). unfold all_udp. cbn.
      by apply Forall_erase.
    + unfold close. apply Z.eqb_neq in E. rewrite E. msimp. by rewrite Hd.
Qed.

(** X17.  No reachable reactor holds a TCP socket: every table entry is
    typed UDP, whatever calls were made, and a [poll] from a reachable
    state calls none of the connect, accept, close, data and writable
    handlers. *)
Theorem reachable_tables_hold_udp_only P w :
  reachable P w ->
  all_udp w
  /\ (forall os hs timeout,
        Forall (fun e => ~ tcp_handler_call e) (poll P os hs timeout w).1.2).
Proof.
  intros Hr.
  assert (all_udp w) as Hall.
  { induction Hr as [os nd t w Hnew|os hs c w Hos Hr IH].
    - unfold Wire_new in Hnew. destruct (os_pipe os) as [[p0 p1]|]; [|done].
      injection Hnew as _ <-. constructor.
    - by apply exec_all_udp. }
  split; [done|]. intros os hs timeout. rewrite poll_shape. cbn [fst snd].
  constructor; [by intros []|]. apply Forall_app. split.
  - destruct (FD_ISSET _ _); repeat constructor; by intros [].
  - by apply (poll_loop_invariant P os hs _ _ _ all_udp
                (fun e => ~ tcp_handler_call e) (poll_body_udp P os hs _ _ _)).
Qed.

(** ** Handler exceptions across a pass *)




(** ** The writable notification *)

Lemma tcpSetNotifyWritable_state h b w s :
  deref h (_socks w) = Some s ->
  (tcpSetNotifyWritable h b w).1.1 =
    with_writefds (if b then FD_SET (sock s) (_writefds w)
                   else FD_CLR (sock s) (_writefds w)) w.
Proof.
  intros Hd. unfold tcpSetNotifyWritable. msimp. rewrite Hd. by destruct b.
Qed.

Lemma FD_ISSET_SET fd s : FD_ISSET fd (FD_SET fd s) = true.
Proof.
  apply bool_decide_eq_true. unfold FD_SET. apply elem_of_union_l.
  by apply elem_of_singleton.
Qed.

(** X18.  The writable notification of a connected socket.  After
    [tcpSetNotifyWritable] with [false] the loop of [poll] does not call
    the writable handler for the socket whatever [select] reports; after
    [tcpSetNotifyWritable] with [true], a pass in which the descriptor is
    writable and not readable calls the writable handler once and does
    nothing else. *)
Theorem writable_notification_gate P os hs rfds wfds efds k h s0 w :
  wf_table w -> _socks w !! k = Some (h, s0) ->
  type s0 = ZT_WIRE_SOCKET_TCP_OUT_CONNECTED \/ type s0 = ZT_WIRE_SOCKET_TCP_IN ->
  Forall (fun e => forall u, e <> CallTcpWritable h u)
    (poll_body P os hs rfds wfds efds k h s0
       (tcpSetNotifyWritable h false w).1.1).1.2
  /\ (FD_ISSET (sock s0) wfds = true -> FD_ISSET (sock s0) rfds = false ->
      (poll_body P os hs rfds wfds efds k h s0
         (tcpSetNotifyWritable h true w).1.1).1.2 =
      [CallTcpWritable h (uptr s0)]).
Proof.
  intros Hwf Hk Hty.
  pose proof (iter_not_null _ _ _ _ Hwf Hk) as Hn.
  pose proof (iter_deref _ _ _ _ Hwf Hk) as Hd.
  rewrite !(tcpSetNotifyWritable_state h _ w s0 Hd).
  destruct s0 as [ty fd u sa]. cbn in Hty. cbn [sock uptr].
  split.
  - set (w1 := with_writefds _ w).
    assert (_socks w1 !! k = Some (h, {| type := ty; sock := fd; uptr := u; saddr := sa |}))
      as Hk1 by done.
    assert (deref h (_socks w1) = Some {| type := ty; sock := fd; uptr := u; saddr := sa |})
      as Hd1 by done.
    assert (FD_ISSET fd (_writefds w1) = false) as Hoff
      by (subst w1; cbn; apply FD_ISSET_CLR).
    clearbody w1. unfold poll_body. cbn [type sock].
    destruct (os_recv os fd) as [n data] eqn:Hrecv.
    destruct Hty as [-> | ->];
      (destruct (FD_ISSET fd rfds);
       [destruct (to_long n <=? 0)|];
       repeat (progress msimp
               || rewrite Hoff
               || rewrite (close_run _ _ _ _ _ Hn Hd1)
               || rewrite lookup_update_at_iter
               || rewrite Hk1
               || rewrite FD_ISSET_CLR
               || rewrite andb_false_r
               || match goal with
                  | |- context [if throws ?x then _ else _] => destruct (throws x)
                  | |- context [if fd >=? ?x then _ else _] => destruct (fd >=? x)
                  end);
       repeat constructor; intros ?; discriminate).
  - intros Hw Hr. unfold poll_body. cbn [type sock].
    destruct Hty as [-> | ->]; rewrite Hr;
      repeat (progress msimp || rewrite Hw || rewrite FD_ISSET_SET
              || rewrite Hk
              || match goal with
                 | |- context [if throws ?x then _ else _] => destruct (throws x)
                 end);
      reflexivity.
Qed.

(** ** [_isTCP] *)

(** X19.  [_isTCP] tests the two low bits of the type code: it answers
    true for connected outbound, inbound, listening and UDP sockets, and
    false for pending outbound and raw sockets. *)
Theorem isTCP_by_low_bits sws :
  (_isTCP sws = true <->
     type sws = ZT_WIRE_SOCKET_TCP_OUT_CONNECTED \/ type sws = ZT_WIRE_SOCKET_TCP_IN
     \/ type sws = ZT_WIRE_SOCKET_TCP_LISTEN \/ type sws = ZT_WIRE_SOCKET_UDP)
  /\ (_isTCP sws = false <->
        type sws = ZT_WIRE_SOCKET_TCP_OUT_PENDING \/ type sws = ZT_WIRE_SOCKET_RAW).
Proof.
  unfold _isTCP. destruct (type sws); cbn;
    (split; split; intros;
     first [discriminate | reflexivity | solve [auto 6] | solve [intuition discriminate]]).
Qed.

(** ** The further properties at concrete reactors *)

Lemma adverse_sound os :
  os_new_node os = Sample.top_alloc -> allocator_sound os.
Proof.
  intros Heq l a. rewrite Heq. unfold Sample.top_alloc. intros [= <-]. split.
  - pose proof (top_alloc_floor l). unfold NULL. lia.
  - intros Hin%top_alloc_bound. lia.
Qed.

Lemma two_sockets_reachable : reachable Sample.tiny Sample.two_sockets.
Proof.
  unfold Sample.two_sockets.
  repeat (apply reachable_step; [apply os_ok_sound|]).
  apply fresh_reachable.
Qed.

(** Tearing down the table of four sockets, every handler throwing. *)
Lemma destructor_closes_everything_witness :
  wf_table Sample.mixed
  /\ exists w',
       Wire_destroy Sample.throwing Sample.mixed =
         (w',
          [SysClose 5; CallTcpConnect 4096 1 false;
           SysClose 6; CallTcpClose 4160 2;
           SysClose 7; SysClose 8; SysClose 3; SysClose 4],
          Ret tt)
       /\ _socks w' = [].
Proof.
  assert (wf_table Sample.mixed) as Hwf by wf_by_evaluation.
  split; [exact Hwf|].
  destruct (destructor_closes_everything Sample.throwing Sample.mixed Hwf)
    as (w' & Hrun & Hs & _).
  exists w'. split; [exact Hrun|exact Hs].
Defined.

(** Closing the connected socket of the table of four leaves the
    listening one as it is. *)
Lemma close_leaves_others_witness :
  deref 4224 (_socks (close Sample.quiet 4160 true Sample.mixed).1.1) =
  Some (Sample.entry ZT_WIRE_SOCKET_TCP_LISTEN 7 3).
Proof.
  destruct (close_leaves_others Sample.quiet 4160 true Sample.mixed
              (Sample.entry ZT_WIRE_SOCKET_TCP_OUT_CONNECTED 6 2))
    as (Hothers & _ & _); [unfold NULL; lia|reflexivity|].
  rewrite Hothers by lia. reflexivity.
Defined.

(** A request for 131072 bytes where nothing above 100000 is granted. *)
Lemma buffer_backoff_schedule_witness :
  exists n,
    set_buffer_size (buffer_fuel 131072) (Sample.os_ok 5) 5 SO_RCVBUF 131072
      Sample.fresh = (Sample.fresh, attempts 5 SO_RCVBUF 131072 n, Ret tt)
    /\ (n = 0%nat <-> 131072 < 65536).
Proof.
  destruct (buffer_backoff_schedule (Sample.os_ok 5) 5 SO_RCVBUF 131072
              Sample.fresh) as (n & Hrun & _ & _ & Hzero & _); [lia|].
  exists n. split; [exact Hrun|exact Hzero].
Defined.

(** The first socket bound on a fresh reactor. *)
Lemma udpBind_returns_live_socket_witness :
  let r := udpBind Sample.linux (Sample.os_ok 5) Sample.loopback 9 0 Sample.fresh in
  r.2 = Ret 4096
  /\ deref 4096 (_socks r.1.1) =
       Some {| type := ZT_WIRE_SOCKET_UDP; sock := 5; uptr := 9;
               saddr := Sample.loopback |}
  /\ (5 ∈ _readfds r.1.1)
  /\ last r.1.2 = Some (SysSetNonblock 5).
Proof.
  cbn zeta.
  set (r := udpBind Sample.linux (Sample.os_ok 5) Sample.loopback 9 0 Sample.fresh).
  assert (wf_table Sample.fresh) as Hwf by wf_by_evaluation.
  assert (r = (r.1.1, r.1.2, Ret 4096)) as Hrun by (vm_compute; reflexivity).
  destruct (udpBind_returns_live_socket Sample.linux (Sample.os_ok 5)
              Sample.loopback 9 0 Sample.fresh r.1.1 r.1.2 4096 Hwf
              (os_ok_sound 5) Hrun)
    as (_ & Hd & _ & _ & Hin & _ & _ & Hlast & _); [unfold NULL; lia|].
  split; [by rewrite Hrun|]. split; [exact Hd|]. split; [exact Hin|exact Hlast].
Defined.

(** A bind that the system refuses. *)
Lemma udpBind_failure_releases_socket_witness :
  let r := udpBind Sample.linux Adverse.bind_refused Sample.loopback 9 0
             Sample.fresh in
  r.2 = Ret NULL /\ r.1.1 = Sample.fresh /\ last r.1.2 = Some (SysClose 5).
Proof.
  cbn zeta.
  set (r := udpBind Sample.linux Adverse.bind_refused Sample.loopback 9 0
              Sample.fresh).
  assert (r = (r.1.1, r.1.2, Ret NULL)) as Hrun by (vm_compute; reflexivity).
  destruct (udpBind_failure_releases_socket Sample.linux Adverse.bind_refused
              Sample.loopback 9 0 Sample.fresh r.1.1 r.1.2
              (adverse_sound Adverse.bind_refused eq_refl) Hrun)
    as (Hw & _ & _ & Hlast).
  split; [by rewrite Hrun|]. split; [exact Hw|].
  apply Hlast; reflexivity.
Defined.

(** Binding on a fresh reactor and closing again. *)
Lemma udpBind_then_close_restores_witness :
  exists w2,
    close Sample.throwing 4096 true
      (udpBind Sample.linux (Sample.os_ok 5) Sample.loopback 9 0 Sample.fresh).1.1 =
      (w2, [SysClose 5], Ret tt)
    /\ _socks w2 = [] /\ _readfds w2 = ∅.
Proof.
  set (r := udpBind Sample.linux (Sample.os_ok 5) Sample.loopback 9 0 Sample.fresh).
  assert (wf_table Sample.fresh) as Hwf by wf_by_evaluation.
  assert (r = (r.1.1, r.1.2, Ret 4096)) as Hrun by (vm_compute; reflexivity).
  destruct (udpBind_then_close_restores Sample.linux (Sample.os_ok 5)
              Sample.throwing Sample.loopback 9 0 true Sample.fresh
              r.1.1 r.1.2 4096 Hwf (os_ok_sound 5) Hrun)
    as (w2 & Hclose & Hs & Hr & _); try apply not_elem_of_empty;
    [unfold NULL; lia|].
  exists w2. split; [exact Hclose|]. split; [exact Hs|exact Hr].
Defined.

(** A datagram of one byte arriving on the UDP socket. *)
Lemma udp_socket_dispatch_witness :
  exists w' t,
    poll_body Sample.linux (Sample.os_ok 6) Sample.throwing {[ 5 ]} ∅ ∅ 0 4096
      (Sample.entry ZT_WIRE_SOCKET_UDP 5 7) (Sample.single ZT_WIRE_SOCKET_UDP) =
      (w', t, Ret false)
    /\ t = [SysRecvfrom 5; CallDatagram 4096 7 Sample.peer [Byte.x00] 1].
Proof.
  destruct (udp_socket_dispatch Sample.linux (Sample.os_ok 6) Sample.throwing
              {[ 5 ]} ∅ ∅ 0 4096 (Sample.entry ZT_WIRE_SOCKET_UDP 5 7)
              (Sample.single ZT_WIRE_SOCKET_UDP) eq_refl eq_refl)
    as (w' & t & Hrun & _ & _ & _ & Hdata).
  exists w', t. split; [exact Hrun|].
  apply Hdata; [reflexivity|vm_compute; reflexivity].
Defined.

(** One byte arriving on the connected socket, which is not registered
    for writing. *)
Lemma connected_socket_dispatch_witness :
  exists w' t r,
    poll_body Sample.linux (Sample.os_ok 6) Sample.throwing {[ 5 ]} {[ 5 ]} ∅
      0 4096 (Sample.entry ZT_WIRE_SOCKET_TCP_OUT_CONNECTED 5 7)
      (Sample.single ZT_WIRE_SOCKET_TCP_OUT_CONNECTED) = (w', t, r)
    /\ t = [SysRecv 5; CallTcpData 4096 7 [Byte.x00] 1] /\ r = Ret false.
Proof.
  assert (wf_table (Sample.single ZT_WIRE_SOCKET_TCP_OUT_CONNECTED)) as Hwf
    by wf_by_evaluation.
  destruct (connected_socket_dispatch Sample.linux (Sample.os_ok 6)
              Sample.throwing {[ 5 ]} {[ 5 ]} ∅ 0 4096
              (Sample.entry ZT_WIRE_SOCKET_TCP_OUT_CONNECTED 5 7)
              (Sample.single ZT_WIRE_SOCKET_TCP_OUT_CONNECTED)
              Hwf eq_refl (or_introl eq_refl))
    as (w' & t & r & Hrun & _ & Hdata & _).
  exists w', t, r. split; [exact Hrun|].
  destruct Hdata as (Ht & Hr & _);
    [reflexivity|vm_compute; reflexivity|reflexivity|].
  split; [exact Ht|exact Hr].
Defined.

(** A listening socket whose [accept] fails. *)
Lemma listening_socket_refusals_witness :
  poll_body Sample.linux Adverse.bind_refused Sample.throwing {[ 5 ]} ∅ ∅ 0 4096
    (Sample.entry ZT_WIRE_SOCKET_TCP_LISTEN 5 7)
    (Sample.single ZT_WIRE_SOCKET_TCP_LISTEN) =
  (Sample.single ZT_WIRE_SOCKET_TCP_LISTEN, [SysAccept 5], Ret false).
Proof.
  destruct (listening_socket_refusals Sample.linux Adverse.bind_refused
              Sample.throwing {[ 5 ]} ∅ ∅ 0 4096
              (Sample.entry ZT_WIRE_SOCKET_TCP_LISTEN 5 7)
              (Sample.single ZT_WIRE_SOCKET_TCP_LISTEN) eq_refl)
    as (_ & Hfail & _).
  apply Hfail; reflexivity.
Defined.

(** A connection accepted when no node can be allocated. *)
Lemma accept_allocation_failure_witness :
  poll_loop Sample.linux 3 Adverse.no_memory Sample.throwing {[ 5 ]} ∅ ∅ 0
    (Sample.single ZT_WIRE_SOCKET_TCP_LISTEN) =
  (Sample.single ZT_WIRE_SOCKET_TCP_LISTEN,
   [SysAccept 5; SysSetsockopt 6 TCP_NODELAY 1; SysSetNonblock 6],
   Throw BadAlloc).
Proof.
  apply (accept_allocation_failure Sample.linux Adverse.no_memory
           Sample.throwing {[ 5 ]} ∅ ∅ 2 0 4096
           (Sample.entry ZT_WIRE_SOCKET_TCP_LISTEN 5 7)
           (Sample.single ZT_WIRE_SOCKET_TCP_LISTEN)); reflexivity.
Defined.

(** A timeout of one and a half seconds. *)
Lemma poll_timeout_conversion_witness :
  exists n r wr ex,
    head (poll Sample.linux (Sample.os_ok 9) Sample.quiet 1500 Sample.mixed).1.2 =
    Some (SysSelect n r wr ex (Some (1, 500000))).
Proof.
  destruct (poll_timeout_conversion Sample.linux (Sample.os_ok 9) Sample.quiet
              1500 Sample.mixed) as (n & r & wr & ex & tvp & Hhead & _ & Hpos);
    [lia|].
  exists n, r, wr, ex. rewrite Hhead.
  destruct Hpos as (sec & usec & -> & Hu & Hsum & Hmod); [lia|].
  assert (usec = 500000 /\ sec = 1) as [-> ->]; [|reflexivity].
  assert (usec / 1000 < 1000) by (apply Z.div_lt_upper_bound; lia).
  assert (0 <= usec / 1000) by (apply Z.div_pos; lia).
  pose proof (Z.div_mod usec 1000 ltac:(lia)). lia.
Defined.

(** A pass over the table of four after a timeout. *)
Lemma poll_nothing_ready_witness :
  poll Sample.linux Adverse.timed_out Sample.throwing 250 Sample.mixed =
  (Sample.mixed,
   [SysSelect 9 {[ 6; 7; 8 ]} {[ 5; 6 ]} {[ 5 ]} (Some (0, 250000))],
   Ret tt).
Proof.
  apply (poll_nothing_ready Sample.linux Adverse.timed_out Sample.throwing
           250 Sample.mixed).
  intros fd _. cbn. repeat split; apply not_elem_of_empty.
Defined.

(** Closing the socket with the highest descriptor. *)
Lemma nfds_never_lowered_witness :
  _nfds Sample.mixed = 8
  /\ 8 <= _nfds (exec Sample.linux (Sample.os_ok 9) Sample.quiet
                   (DoClose 4288 true) Sample.mixed).
Proof.
  split; [reflexivity|].
  assert (wf_table Sample.mixed) as Hwf by wf_by_evaluation.
  exact (proj1 (nfds_never_lowered Sample.linux (Sample.os_ok 9) Sample.quiet
                  (DoClose 4288 true) Sample.mixed (os_ok_sound 9) Hwf)).
Defined.

(** The pipe of the reactor with two sockets. *)
Lemma pipe_within_select_range_witness :
  _whackReceiveSocket Sample.two_sockets <= _nfds Sample.two_sockets
  /\ _whackSendSocket Sample.two_sockets <= _nfds Sample.two_sockets.
Proof.
  exact (pipe_within_select_range Sample.tiny Sample.two_sockets
           two_sockets_reachable).
Defined.

(** The kinds in the reactor with two sockets. *)
Lemma reachable_tables_hold_udp_only_witness :
  all_udp Sample.two_sockets.
Proof.
  exact (proj1 (reachable_tables_hold_udp_only Sample.tiny Sample.two_sockets
                  two_sockets_reachable)).
Defined.

(** The connected socket, asked to notify and found writable. *)
Lemma writable_notification_gate_witness :
  (poll_body Sample.linux (Sample.os_ok 6) Sample.throwing ∅ {[ 5 ]} ∅ 0 4096
     (Sample.entry ZT_WIRE_SOCKET_TCP_OUT_CONNECTED 5 7)
     (tcpSetNotifyWritable 4096 true
        (Sample.single ZT_WIRE_SOCKET_TCP_OUT_CONNECTED)).1.1).1.2 =
  [CallTcpWritable 4096 7].
Proof.
  assert (wf_table (Sample.single ZT_WIRE_SOCKET_TCP_OUT_CONNECTED)) as Hwf
    by wf_by_evaluation.
  destruct (writable_notification_gate Sample.linux (Sample.os_ok 6)
              Sample.throwing ∅ {[ 5 ]} ∅ 0 4096
              (Sample.entry ZT_WIRE_SOCKET_TCP_OUT_CONNECTED 5 7)
              (Sample.single ZT_WIRE_SOCKET_TCP_OUT_CONNECTED)
              Hwf eq_refl (or_introl eq_refl)) as (_ & Hon).
  apply Hon; reflexivity.
Defined.

(** A connection accepted on the listening socket, the handler
    throwing. *)
Lemma accept_appends_udp_entry_witness :
  exists w' e,
    poll_body Sample.linux (Sample.os_ok 6) Sample.throwing {[ 5 ]} ∅ ∅ 0 4096
      (Sample.entry ZT_WIRE_SOCKET_TCP_LISTEN 5 7)
      (Sample.single ZT_WIRE_SOCKET_TCP_LISTEN) =
      (w',
       [SysAccept 5; SysSetsockopt 6 TCP_NODELAY 1; SysSetNonblock 6;
        CallTcpAccept 4096 4160 7 0 Sample.peer],
       Ret false)
    /\ _socks w' =
         [(4096, Sample.entry ZT_WIRE_SOCKET_TCP_LISTEN 5 7); (4160, e)]
    /\ type e = ZT_WIRE_SOCKET_UDP
    /\ _readfds w' = FD_SET 6 {[ 5 ]}.
Proof.
  assert (FD_ISSET 5 ({[ 5 ]} : fd_set) = true) as Hrd
    by (vm_compute; reflexivity).
  destruct (accept_appends_udp_entry Sample.linux (Sample.os_ok 6)
              Sample.throwing {[ 5 ]} ∅ ∅ 0 4096
              (Sample.entry ZT_WIRE_SOCKET_TCP_LISTEN 5 7)
              (Sample.single ZT_WIRE_SOCKET_TCP_LISTEN) 6 Sample.peer 4160
              eq_refl eq_refl Hrd eq_refl eq_refl eq_refl eq_refl)
    as (w' & e & Hrun & Hs & Hty & _ & _ & _ & Hr & _).
  exists w', e. split; [exact Hrun|]. split; [exact Hs|].
  split; [exact Hty|exact Hr].
Defined.

